(** * 20detik.py: scraper, ledger of posted videos and multi-page uploader

    A shallow embedding of [src/20detik.py].  Python values that come out of
    JSON are values of [json]; a Python [dict] read from JSON is an
    association list in insertion order; the process state (the in-memory
    ledger, the ledger file, the download directory) is threaded through a
    state-and-exception monad, and everything outside the process (the
    network, yt-dlp, ffmpeg, the configuration file) answers through an
    [oracle] indexed by the number of external calls made so far.  Every
    external call leaves an [event] in the trace of the state. *)

From Stdlib Require Import ZArith Ascii String List Bool Lia.
From stdpp Require Import base gmap strings list.

Set Warnings "-register-all".

Open Scope string_scope.
Open Scope Z_scope.
Open Scope list_scope.

(** ** Configuration constants (module level of the script) *)

Definition DATA_FILE : string := "posted_videos.json".
Definition DOWNLOAD_DIR : string := "downloaded_videos".
Definition FB_PAGES_FILE : string := "facebook_pages.json".
Definition CHECK_INTERVAL : Z := 7200.
Definition UPLOAD_DELAY : Z := 30.

(** ** JSON values and Python dictionaries *)

(** What [json.load] returns.  Floating point numbers are not modelled. *)
Inductive json : Type :=
| JNull
| JBool (b : bool)
| JNum (n : Z)
| JStr (s : string)
| JList (l : list json)
| JObj (kvs : list (string * json)).

(** A [dict] with string keys, in insertion order; keys are not repeated in
    what [json.load] builds, and lookup takes the first binding. *)
Definition Dict : Type := list (string * json).

Fixpoint dict_get (d : Dict) (k : string) : option json :=
  match d with
  | [] => None
  | (k', v) :: d' => if String.eqb k' k then Some v else dict_get d' k
  end.

Definition dict_has (d : Dict) (k : string) : bool :=
  match dict_get d k with Some _ => true | None => false end.

Definition is_obj (j : json) : bool :=
  match j with JObj _ => true | _ => false end.

(** ** Exceptions *)

Inductive exn : Type :=
| FileNotFoundError (path : string)
| ValueError (msg : string)
| KeyError (key : string)
| TypeError (msg : string)
| IndexError
| HTTPError (response_text : string)
| IOFault (msg : string)          (* raised by an external collaborator *)
| PyException (msg : string)      (* raise Exception("...") *)
| ConfigLoadError (cause : exn).  (* Exception(f"Error loading Facebook pages config: {e}") *)

(** ** Strings the way Python treats them *)

Definition nl : string := String (ascii_of_nat 10) EmptyString.

(** [sub in s] *)
Fixpoint str_contains (sub s : string) : bool :=
  String.prefix sub s ||
  match s with
  | EmptyString => false
  | String _ s' => str_contains sub s'
  end.

(** [s.replace(old, new)] for a non-empty [old]: occurrences are replaced
    left to right and do not overlap.  [skip] counts the characters of a
    match that are still to be dropped. *)
Fixpoint replace_from (old new : string) (skip : nat) (s : string) : string :=
  match s with
  | EmptyString => EmptyString
  | String c s' =>
      match skip with
      | S k => replace_from old new k s'
      | O =>
          if String.prefix old s
          then new +:+ replace_from old new (String.length old - 1) s'
          else String c (replace_from old new 0 s')
      end
  end.

Definition str_replace (old new s : string) : string := replace_from old new 0 s.

(** [s.split(sep)] for a one-character separator. *)
Fixpoint str_split (sep : ascii) (s : string) : list string :=
  match s with
  | EmptyString => [EmptyString]
  | String c s' =>
      if Ascii.eqb c sep then EmptyString :: str_split sep s'
      else match str_split sep s' with
           | [] => [String c EmptyString]
           | p :: ps => String c p :: ps
           end
  end.

(** ASCII white space as [str.strip] and [int] see it. *)
Definition is_space (c : ascii) : bool :=
  let n := nat_of_ascii c in
  (Nat.eqb n 32 || (Nat.leb 9 n && Nat.leb n 13) || (Nat.leb 28 n && Nat.leb n 31))%bool.

Fixpoint lstrip (s : string) : string :=
  match s with
  | String c s' => if is_space c then lstrip s' else s
  | EmptyString => EmptyString
  end.

Fixpoint rstrip (s : string) : string :=
  match s with
  | EmptyString => EmptyString
  | String c s' =>
      match rstrip s' with
      | EmptyString => if is_space c then EmptyString else String c EmptyString
      | r => String c r
      end
  end.

Definition str_strip (s : string) : string := rstrip (lstrip s).

Definition lower_ascii (c : ascii) : ascii :=
  let n := nat_of_ascii c in
  if (Nat.leb 65 n && Nat.leb n 90)%bool then ascii_of_nat (n + 32) else c.

Fixpoint str_lower (s : string) : string :=
  match s with
  | EmptyString => EmptyString
  | String c s' => String (lower_ascii c) (str_lower s')
  end.

(** [sep.join(parts)] *)
Fixpoint str_join (sep : string) (parts : list string) : string :=
  match parts with
  | [] => EmptyString
  | [p] => p
  | p :: ps => p +:+ sep +:+ str_join sep ps
  end.

Definition digit_of (c : ascii) : option Z :=
  let n := nat_of_ascii c in
  if (Nat.leb 48 n && Nat.leb n 57)%bool then Some (Z.of_nat (n - 48)) else None.

(** Decimal digits, single underscores allowed between two digits. *)
Fixpoint parse_digits (acc : Z) (prev_digit : bool) (s : string) : option Z :=
  match s with
  | EmptyString => if prev_digit then Some acc else None
  | String c s' =>
      match digit_of c with
      | Some d => parse_digits (10 * acc + d) true s'
      | None =>
          if (Ascii.eqb c "_" && prev_digit)%bool
          then parse_digits acc false s'
          else None
      end
  end.

(** [int(s)] on a [str] of ASCII characters: [None] stands for ValueError. *)
Definition py_int (s : string) : option Z :=
  match str_strip s with
  | String "+" r => parse_digits 0 false r
  | String "-" r => Z.opp <$> parse_digits 0 false r
  | t => parse_digits 0 false t
  end.

(** Truthiness of an [Optional[str]]. *)
Definition truthy (o : option string) : bool :=
  match o with
  | Some (String _ _) => true
  | _ => false
  end.

(** [os.path.basename] and [os.path.join] on POSIX paths. *)
Definition basename (p : string) : string := List.last (str_split "/" p) EmptyString.

Definition path_join (dir name : string) : string :=
  match name with
  | String "/" _ => name
  | _ =>
      match dir with
      | EmptyString => name
      | _ => if String.eqb (basename dir) "" then dir +:+ name else dir +:+ "/" +:+ name
      end
  end.

(** ** Records of the pipeline *)

Inductive status : Type := StSuccess | StFailed | StError.

(** The text under the "error" key of a result. *)
Inductive failure_reason : Type :=
| InvalidAccessToken          (* "Invalid access token" *)
| NoPostId                    (* "Upload returned no post ID" *)
| Raised (e : exn).           (* str(e) *)

(** One entry of the list [upload_to_all_pages] returns.  The "url" entry of
    a success is "https://facebook.com/" followed by the post id and is not
    kept apart from it. *)
Record upload_result : Type := {
  res_page_name : json;
  res_status : status;
  res_post_id : option string;
  res_error : option failure_reason;
}.

(** The dict [get_video_details] returns; [posted_to] is absent until [main]
    sets it. *)
Record details : Type := {
  title : string;
  description : string;
  duration : Z;
  keywords : string;
  source_url : string;
  scraped_at : string;
  posted_to : option (list upload_result);
}.

Definition set_posted_to (d : details) (rs : list upload_result) : details :=
  {| title := title d; description := description d; duration := duration d;
     keywords := keywords d; source_url := source_url d;
     scraped_at := scraped_at d; posted_to := Some rs |}.

(** An element of [VideoManager.posted_videos]. *)
Inductive ledger_entry : Type :=
| Loaded (d : Dict)        (* an object read from the ledger file *)
| Posted (d : details).    (* a details dict appended by add_posted_video *)

(** [video.get('source_url')] *)
Definition entry_source_url (video : ledger_entry) : option json :=
  match video with
  | Loaded d => dict_get d "source_url"
  | Posted d => Some (JStr (source_url d))
  end.

(** What the ledger file holds: [StoreUnreadable] stands for a file that
    [open] or [json.load] raises on, [StoreHolds l] for the JSON array that
    encodes [l] (the annotated [List[Dict]]). *)
Inductive store : Type :=
| StoreMissing
| StoreEmpty
| StoreUnreadable (msg : string)
| StoreHolds (entries : list ledger_entry).

(** What the configuration file holds. *)
Inductive cfg_source : Type :=
| CfgMissing
| CfgUnreadable (msg : string)
| CfgJson (j : json).

(** The fields [FacebookUploader.__init__] copies from a page config. *)
Record uploader : Type := {
  page_id : json;
  access_token : json;
  page_name : json;
}.

(** What the scraper reads off a video page: the texts BeautifulSoup finds
    and the result of [_extract_video_url] on the page source. *)
Record page_html : Type := {
  h1_title : option string;             (* h1.detail__title *)
  title_tag : option string;            (* title *)
  body_text : option string;            (* div.detail__body-text *)
  duration_marker : option string;      (* div.media__icon--top-right *)
  meta_keywords : option (option string);  (* meta[name=keywords], its content attribute *)
  extracted_video_url : option string;
}.

(** Answer to an HTTP request: the request raised, or a response came back
    with its status code, its text and what [.json().get(key)] gives on it
    ([inl] when decoding raises). *)
Inductive http_reply : Type :=
| NetError (msg : string)
| Reply (status_code : Z) (text : string) (field : string + option string).

(** [response.raise_for_status()] raises for 4xx and 5xx. *)
Definition is_http_error (status_code : Z) : bool :=
  (400 <=? status_code) && (status_code <? 600).

Inductive write_result : Type :=
| WriteOk
| WriteFails (msg : string) (left_behind : store).

(** ** The world outside the process *)

Record oracle : Type := {
  fb_pages_file : nat -> cfg_source;
  ledger_write : nat -> write_result;
  feed_hrefs : nat -> string + list string;
  url_join : string -> string -> string;
  detail_page : nat -> string -> string + page_html;
  now_iso : nat -> string;
  ytdlp : nat -> string -> string + string;
  ffmpeg : nat -> string -> string -> option string;
  http_validate : nat -> uploader -> http_reply;
  http_reel_start : nat -> uploader -> http_reply;
  http_reel_transfer : nat -> uploader -> string -> string -> http_reply;
  http_reel_finish : nat -> uploader -> string -> string -> http_reply;
  http_regular : nat -> uploader -> string -> string -> http_reply;
}.

(** ** Events and log lines *)

Inductive log_line : Type :=
| LogLedgerLoadError (msg : string)
| LogLedgerSaveError (msg : string)
| LogDeleteError (filename : string) (e : exn)
| LogDownloadError (msg : string)
| LogConvertError (msg : string)
| LogTokenValidationError (msg : string)
| LogInvalidToken (name : json)
| LogUploaded (name : json)
| LogUploadError (name : json) (e : exn)
| LogReelHTTPError (text : string)
| LogReelError (e : exn)
| LogReelPublished (name : json)
| LogRegularHTTPError (text : string)
| LogRegularError (e : exn)
| LogRegularUploaded (name : json)
| LogScrapingError (msg : string)
| LogDetailsError (link : string) (e : exn)
| LogConfigError (e : exn)
| LogNoVideos
| LogSkipPosted (link : string)
| LogDetailsFailed
| LogDownloadFailed
| LogRecorded (success_count : nat)
| LogZeroSuccess
| LogCleanedUp
| LogCleanupError (e : exn)
| LogItemError (e : exn)
| LogMainLoopError (e : exn)
| LogCycleCompleted (new_videos : nat).

Inductive event : Type :=
| EvReadConfig
| EvWriteLedger
| EvScrapeFeed
| EvFetchDetails (link : string)
| EvDownload (url : string)
| EvConvert (input : string)
| EvRemove (path : string)
| EvValidate (pid : json)
| EvReelStart (pid : json)
| EvReelTransfer (pid : json) (video_id : string)
| EvReelFinish (pid : json) (video_id : string)
| EvRegularPost (pid : json)
| EvPrint (line : log_line).

(** ** Process state and the monad of the script *)

Record state : Type := {
  clock : nat;                          (* external calls made so far *)
  storage : gset string;                (* files in DOWNLOAD_DIR *)
  posted_videos : list ledger_entry;    (* VideoManager.posted_videos *)
  data_file : store;                    (* the file DATA_FILE *)
  trace : list event;
}.

Definition M (A : Type) : Type := state -> (exn + A) * state.

Definition ret {A} (a : A) : M A := fun st => (inr a, st).

Definition raise {A} (e : exn) : M A := fun st => (inl e, st).

Definition bind {A B} (m : M A) (k : A -> M B) : M B :=
  fun st =>
    match m st with
    | (inl e, st') => (inl e, st')
    | (inr a, st') => k a st'
    end.

(** [try: m  except Exception as e: h e] *)
Definition try_except {A} (m : M A) (h : exn -> M A) : M A :=
  fun st =>
    match m st with
    | (inl e, st') => h e st'
    | (inr a, st') => (inr a, st')
    end.

Notation "'let*' x ':=' m 'in' k" := (bind m (fun x => k))
  (at level 10, x name, m at level 100, k at level 200).
Notation "m ';;' k" := (bind m (fun _ => k))
  (at level 100, k at level 200, right associativity).

Definition gets {A} (f : state -> A) : M A := fun st => (inr (f st), st).

Definition emit (e : event) : M unit :=
  fun st =>
    (inr tt, {| clock := clock st; storage := storage st;
                posted_videos := posted_videos st; data_file := data_file st;
                trace := trace st ++ [e] |}).

Definition print (line : log_line) : M unit := emit (EvPrint line).

(** An external call: the oracle answers at the current clock, the clock
    advances and the call is traced. *)
Definition ask {A} (q : nat -> A) (e : event) : M A :=
  fun st =>
    (inr (q (clock st)),
     {| clock := S (clock st); storage := storage st;
        posted_videos := posted_videos st; data_file := data_file st;
        trace := trace st ++ [e] |}).

Definition set_storage (s : gset string) : M unit :=
  fun st =>
    (inr tt, {| clock := clock st; storage := s;
                posted_videos := posted_videos st; data_file := data_file st;
                trace := trace st |}).

Definition set_posted_videos (l : list ledger_entry) : M unit :=
  fun st =>
    (inr tt, {| clock := clock st; storage := storage st;
                posted_videos := l; data_file := data_file st;
                trace := trace st |}).

Definition set_data_file (s : store) : M unit :=
  fun st =>
    (inr tt, {| clock := clock st; storage := storage st;
                posted_videos := posted_videos st; data_file := s;
                trace := trace st |}).

(** [page[key]] on a value read from JSON. *)
Definition subscript (page : json) (key : string) : M json :=
  match page with
  | JObj kvs =>
      match dict_get kvs key with
      | Some v => ret v
      | None => raise (KeyError key)
      end
  | JStr _ => raise (TypeError "string indices must be integers")
  | JList _ => raise (TypeError "list indices must be integers or slices")
  | _ => raise (TypeError "object is not subscriptable")
  end.

(** [os.remove(path)] *)
Definition os_remove (path : string) : M unit :=
  emit (EvRemove path) ;;
  let* files := gets storage in
  if bool_decide (path ∈ files)
  then set_storage (files ∖ {[path]})
  else raise (FileNotFoundError path).

(** [for x in l: acc = body acc x] *)
Fixpoint fold_m {A S} (body : S -> A -> M S) (l : list A) (acc : S) : M S :=
  match l with
  | [] => ret acc
  | x :: l' => let* acc' := body acc x in fold_m body l' acc'
  end.

(** ** class FacebookPageManager *)

Definition required_fields : list string := ["page_id"; "access_token"; "page_name"].

(** [field in page] *)
Definition py_in (field : string) (page : json) : M bool :=
  match page with
  | JObj kvs => ret (dict_has kvs field)
  | JStr s => ret (str_contains field s)
  | JList l =>
      ret (existsb (fun x => match x with JStr s => String.eqb s field | _ => false end) l)
  | _ => raise (TypeError "argument is not iterable")
  end.

Fixpoint check_fields (page : json) (fields : list string) : M unit :=
  match fields with
  | [] => ret tt
  | field :: rest =>
      let* present := py_in field page in
      if present then check_fields page rest
      else raise (ValueError ("Missing required field '" +:+ field +:+ "' in page config"))
  end.

Fixpoint check_pages (pages : list json) : M unit :=
  match pages with
  | [] => ret tt
  | page :: rest => check_fields page required_fields ;; check_pages rest
  end.

Definition load_pages (o : oracle) : M (list json) :=
  let* src := ask (fb_pages_file o) EvReadConfig in
  match src with
  | CfgMissing => raise (FileNotFoundError FB_PAGES_FILE)
  | CfgUnreadable msg => raise (ConfigLoadError (IOFault msg))
  | CfgJson j =>
      try_except
        (match j with
         | JList pages => check_pages pages ;; ret pages
         | _ => raise (ValueError "Invalid Facebook pages config format - expected list")
         end)
        (fun e => raise (ConfigLoadError e))
  end.

(** ** class VideoManager *)

Definition load_posted_videos : M (list ledger_entry) :=
  let* file := gets data_file in
  match file with
  | StoreMissing => ret []
  | StoreEmpty => ret []
  | StoreHolds entries => ret entries
  | StoreUnreadable msg => print (LogLedgerLoadError msg) ;; ret []
  end.

(** [VideoManager.__init__] *)
Definition VideoManager : M unit :=
  let* posted := load_posted_videos in
  set_posted_videos posted.

Definition save_posted_videos (o : oracle) : M unit :=
  let* w := ask (ledger_write o) EvWriteLedger in
  match w with
  | WriteOk =>
      let* posted := gets posted_videos in
      set_data_file (StoreHolds posted)
  | WriteFails msg left_behind =>
      set_data_file left_behind ;;
      print (LogLedgerSaveError msg)
  end.

(** [video.get('source_url') == video_url] with [video_url] a [str] *)
Definition source_url_is (video_url : string) (video : ledger_entry) : bool :=
  match entry_source_url video with
  | Some (JStr s) => String.eqb s video_url
  | _ => false
  end.

Definition is_video_posted (video_url : string) : M bool :=
  let* posted := gets posted_videos in
  ret (existsb (source_url_is video_url) posted).

Definition add_posted_video (o : oracle) (video_details : details) : M unit :=
  let* already := is_video_posted (source_url video_details) in
  if negb already then
    let* posted := gets posted_videos in
    set_posted_videos (posted ++ [Posted video_details]) ;;
    save_posted_videos o
  else ret tt.

(** The directory holds plain files only, each removable. *)
Definition clean_downloads : M unit :=
  let* files := gets storage in
  fold_m (fun _ file_path =>
            try_except (os_remove file_path)
                       (fun e => print (LogDeleteError file_path e)))
         (elements files) tt.

(** ** class VideoProcessor *)

Definition create_file (path : string) : M unit :=
  let* files := gets storage in
  set_storage ({[path]} ∪ files).

(** yt-dlp either writes the file whose name it returns, or fails. *)
Definition download_video (o : oracle) (video_url : string) : M (option string) :=
  let* r := ask (fun t => ytdlp o t video_url) (EvDownload video_url) in
  match r with
  | inr path => create_file path ;; ret (Some path)
  | inl msg => print (LogDownloadError msg) ;; ret None
  end.

(** ffmpeg either writes the output file, or fails. *)
Definition convert_to_reel_format (o : oracle) (input_path : string) : M (option string) :=
  let output_path := path_join DOWNLOAD_DIR ("reel_" +:+ basename input_path) in
  let* r := ask (fun t => ffmpeg o t input_path output_path) (EvConvert input_path) in
  match r with
  | None => create_file output_path ;; ret (Some output_path)
  | Some msg => print (LogConvertError msg) ;; ret None
  end.

(** ** class FacebookUploader *)

(** [FacebookUploader.__init__] *)
Definition FacebookUploader (page_config : json) : M uploader :=
  let* pid := subscript page_config "page_id" in
  let* token := subscript page_config "access_token" in
  let* name := subscript page_config "page_name" in
  ret {| page_id := pid; access_token := token; page_name := name |}.

Definition validate_token (o : oracle) (self : uploader) : M bool :=
  let* r := ask (fun t => http_validate o t self) (EvValidate (page_id self)) in
  match r with
  | Reply status_code _ _ => ret (status_code =? 200)
  | NetError msg => print (LogTokenValidationError msg) ;; ret false
  end.

(** The request itself, then [raise_for_status()]. *)
Definition checked (r : http_reply) : M (string + option string) :=
  match r with
  | NetError msg => raise (IOFault msg)
  | Reply status_code text field =>
      if is_http_error status_code then raise (HTTPError text) else ret field
  end.

(** [response.json().get(key)] *)
Definition json_get (field : string + option string) : M (option string) :=
  match field with
  | inl msg => raise (IOFault msg)
  | inr v => ret v
  end.

(** [os.path.getsize(path)] and [open(path, 'rb')] *)
Definition open_rb (path : string) : M unit :=
  let* files := gets storage in
  if bool_decide (path ∈ files) then ret tt else raise (FileNotFoundError path).

Definition _upload_reel (o : oracle) (self : uploader) (video_path description : string)
  : M (option string) :=
  try_except
    (let* init := ask (fun t => http_reel_start o t self) (EvReelStart (page_id self)) in
     let* init_field := checked init in
     let* video_id := json_get init_field in
     match video_id with
     | Some (String c s as vid) =>
         open_rb video_path ;;
         let* up := ask (fun t => http_reel_transfer o t self vid video_path)
                        (EvReelTransfer (page_id self) vid) in
         checked up ;;
         let* pub := ask (fun t => http_reel_finish o t self vid description)
                         (EvReelFinish (page_id self) vid) in
         checked pub ;;
         print (LogReelPublished (page_name self)) ;;
         ret (Some vid)
     | _ => raise (PyException "No video ID received from Facebook")
     end)
    (fun e =>
       match e with
       | HTTPError text => print (LogReelHTTPError text) ;; ret None
       | _ => print (LogReelError e) ;; ret None
       end).

Definition _upload_regular_video (o : oracle) (self : uploader)
    (video_path description : string) : M (option string) :=
  try_except
    (open_rb video_path ;;
     let* response := ask (fun t => http_regular o t self video_path description)
                          (EvRegularPost (page_id self)) in
     let* field := checked response in
     let* video_id := json_get field in
     print (LogRegularUploaded (page_name self)) ;;
     ret video_id)
    (fun e =>
       match e with
       | HTTPError text => print (LogRegularHTTPError text) ;; ret None
       | _ => print (LogRegularError e) ;; ret None
       end).

(** The body of the loop over [pages]: [results] is the list as it stands
    when the iteration starts, the value returned is the list afterwards.
    [time.sleep(UPLOAD_DELAY)] changes nothing that is modelled and is left
    out. *)
Definition upload_to_page (o : oracle) (video_path description : string) (is_reel : bool)
    (results : list upload_result) (page : json) : M (list upload_result) :=
  try_except
    (subscript page "page_name" ;;
     let* uploader := FacebookUploader page in
     let* valid := validate_token o uploader in
     if negb valid then
       let* name := subscript page "page_name" in
       print (LogInvalidToken name) ;;
       let* name := subscript page "page_name" in
       ret (results ++ [{| res_page_name := name; res_status := StFailed;
                           res_post_id := None;
                           res_error := Some InvalidAccessToken |}])%list
     else
       let* post_id :=
         if is_reel then _upload_reel o uploader video_path description
         else _upload_regular_video o uploader video_path description in
       match post_id with
       | Some (String _ _ as pid) =>
           let* name := subscript page "page_name" in
           let results' :=
             (results ++ [{| res_page_name := name; res_status := StSuccess;
                             res_post_id := Some pid; res_error := None |}])%list in
           let* name := subscript page "page_name" in
           print (LogUploaded name) ;;
           ret results'
       | _ =>
           let* name := subscript page "page_name" in
           ret (results ++ [{| res_page_name := name; res_status := StFailed;
                               res_post_id := None; res_error := Some NoPostId |}])%list
       end)
    (fun e =>
       let* name := subscript page "page_name" in
       print (LogUploadError name e) ;;
       let* name := subscript page "page_name" in
       ret (results ++ [{| res_page_name := name; res_status := StError;
                           res_post_id := None; res_error := Some (Raised e) |}])%list).

Definition upload_to_all_pages (o : oracle) (self : uploader)
    (video_path description : string) (is_reel : bool) : M (list upload_result) :=
  let* pages := load_pages o in
  fold_m (upload_to_page o video_path description is_reel) pages [].

(** ** class DetikScraper *)

Definition BASE_URL : string := "https://20.detik.com/detikupdate".

(** [feed_hrefs] gives the [href] of the block-link anchor of every article
    that has one; [list(set(...))] is the list of elements of a finite set,
    in no order the program chooses. *)
Definition get_video_links (o : oracle) : M (list string) :=
  let* r := ask (feed_hrefs o) EvScrapeFeed in
  match r with
  | inl msg => print (LogScrapingError msg) ;; ret []
  | inr hrefs =>
      let video_links :=
        map (url_join o BASE_URL)
            (List.filter (fun href => str_contains "video" (str_lower href))
                    (List.filter (fun href => negb (String.eqb href "")) hrefs)) in
      ret (elements (list_to_set video_links : gset string))
  end.

(** The duration block of [get_video_details]. *)
Definition parse_duration (marker : option string) : M Z :=
  match marker with
  | None => ret 0
  | Some dur_text =>
      if str_contains "detik" dur_text then
        match py_int (str_replace " detik" "" dur_text) with
        | Some n => ret n
        | None => raise (ValueError "invalid literal for int() with base 10")
        end
      else if str_contains ":" dur_text then
        match str_split ":" dur_text with
        | p0 :: p1 :: _ =>
            match py_int p0, py_int p1 with
            | Some m, Some s => ret (m * 60 + s)
            | _, _ => raise (ValueError "invalid literal for int() with base 10")
            end
        | _ => raise IndexError
        end
      else ret 0
  end.

(** The keywords block of [get_video_details]. *)
Definition parse_hashtags (meta : option (option string)) : M string :=
  match meta with
  | None => ret ""
  | Some None => raise (KeyError "content")
  | Some (Some content) =>
      let keywords := map str_strip (str_split "," content) in
      ret (str_join " "
             (map (fun k => "#" +:+ str_replace " " "" k)
                  (List.filter (fun k => negb (String.eqb k "")) keywords)))
  end.

(** The parameter [video_url] is the address of the page; the walrus
    assignment of line 373 rebinds the name to the address of the media, and
    that is what goes under "source_url". *)
Definition get_video_details (o : oracle) (video_url : string) : M (option details) :=
  try_except
    (let* r := ask (fun t => detail_page o t video_url) (EvFetchDetails video_url) in
     let* soup := match r with
                  | inl msg => raise (IOFault msg)
                  | inr page => ret page
                  end in
     let title_element :=
       match h1_title soup with
       | Some t => Some t
       | None => title_tag soup
       end in
     let title := default "No Title" title_element in
     let description := default "" (body_text soup) in
     let* duration := parse_duration (duration_marker soup) in
     let* hashtags := parse_hashtags (meta_keywords soup) in
     match extracted_video_url soup with
     | Some (String _ _ as video_url) =>
         let* stamp := gets (fun st => now_iso o (clock st)) in
         ret (Some {| title := title; description := description;
                      duration := duration; keywords := hashtags;
                      source_url := video_url; scraped_at := stamp;
                      posted_to := None |})
     | _ => ret None
     end)
    (fun e => print (LogDetailsError video_url e) ;; ret None).

(** ** main *)

Definition success_count (upload_results : list upload_result) : nat :=
  length (List.filter (fun r => match res_status r with StSuccess => true | _ => false end)
                 upload_results).

(** How the body of [for link in video_links] ends when nothing is raised
    out of it, with what it had in hand. *)
Inductive item_exit : Type :=
| ExitSkipped                       (* line 464: already posted *)
| ExitNoDetails                     (* line 472 *)
| ExitNoDownload (d : details)      (* line 482 *)
| ExitNoConversion (d : details)    (* line 491 *)
| ExitDistributed (d : details) (video_path : string) (is_reel : bool)
                  (upload_results : list upload_result).   (* line 537 *)

(** Lines 496-537: caption, upload, ledger, clean-up. *)
Definition distribute_and_record (o : oracle) (fb_pages : list json) (details : details)
    (video_path : string) (is_reel : bool) : M item_exit :=
  let description := description details +:+ nl +:+ nl +:+ keywords details in
  let* uploader :=
    match fb_pages with
    | page :: _ => FacebookUploader page
    | [] => raise IndexError
    end in
  let* upload_results :=
    upload_to_all_pages o uploader video_path description is_reel in
  (if (0 <? success_count upload_results)%nat then
     add_posted_video o (set_posted_to details upload_results) ;;
     print (LogRecorded (success_count upload_results))
   else print LogZeroSuccess) ;;
  try_except
    (os_remove video_path ;; print LogCleanedUp)
    (fun e => print (LogCleanupError e)) ;;
  ret (ExitDistributed details video_path is_reel upload_results).

(** Lines 484-494, then the rest of the body. *)
Definition process_downloaded (o : oracle) (fb_pages : list json) (details : details)
    (original_path : string) : M item_exit :=
  let is_reel := duration details <=? 60 in
  if is_reel then
    let* video_path := convert_to_reel_format o original_path in
    os_remove original_path ;;
    match video_path with
    | Some (String _ _ as video_path) =>
        distribute_and_record o fb_pages details video_path is_reel
    | _ => ret (ExitNoConversion details)
    end
  else distribute_and_record o fb_pages details original_path is_reel.

(** Lines 477-482, then the rest of the body. *)
Definition process_fetched (o : oracle) (fb_pages : list json) (details : details)
  : M item_exit :=
  let* original_path := download_video o (source_url details) in
  match original_path with
  | Some (String _ _ as original_path) =>
      process_downloaded o fb_pages details original_path
  | _ => print LogDownloadFailed ;; ret (ExitNoDownload details)
  end.

(** Lines 461-472, then the rest of the body.  [continue] ends the body. *)
Definition process_item (o : oracle) (fb_pages : list json) (link : string) : M item_exit :=
  let* posted := is_video_posted link in
  if posted then print (LogSkipPosted link) ;; ret ExitSkipped
  else
    let* details := get_video_details o link in
    match details with
    | None => print LogDetailsFailed ;; ret ExitNoDetails
    | Some details => process_fetched o fb_pages details
    end.

(** [new_videos += 1] happens on the path that records. *)
Definition new_videos_after (new_videos : nat) (x : item_exit) : nat :=
  match x with
  | ExitDistributed _ _ _ upload_results =>
      if (0 <? success_count upload_results)%nat then S new_videos else new_videos
  | _ => new_videos
  end.

(** The body of [for link in video_links] with its [except Exception]; the
    value is [new_videos] afterwards. *)
Definition process_link (o : oracle) (fb_pages : list json) (new_videos : nat)
    (link : string) : M nat :=
  try_except
    (let* x := process_item o fb_pages link in
     ret (new_videos_after new_videos x))
    (fun e => print (LogItemError e) ;; ret new_videos).

(** One turn of [while True]; both sleeps are left out. *)
Definition run_cycle (o : oracle) (fb_pages : list json) : M unit :=
  try_except
    (let* video_links := get_video_links o in
     match video_links with
     | [] => print LogNoVideos
     | _ =>
         let* new_videos := fold_m (process_link o fb_pages) video_links 0%nat in
         print (LogCycleCompleted new_videos)
     end)
    (fun e => print (LogMainLoopError e)).

Fixpoint run_cycles (o : oracle) (fb_pages : list json) (n : nat) : M unit :=
  match n with
  | O => ret tt
  | S n' => run_cycle o fb_pages ;; run_cycles o fb_pages n'
  end.

(** [main], cut after [n] turns of its loop. *)
Definition main (o : oracle) (n : nat) : M unit :=
  VideoManager ;;
  let* fb_pages :=
    try_except
      (let* fb_pages := load_pages o in
       match fb_pages with
       | [] => raise (PyException "No Facebook pages configured in facebook_pages.json")
       | _ => ret (Some fb_pages)
       end)
      (fun e => print (LogConfigError e) ;; ret None) in
  match fb_pages with
  | Some fb_pages => run_cycles o fb_pages n
  | None => ret tt
  end.

(** ** Concrete worlds *)

Definition init_state : state :=
  {| clock := 0; storage := ∅; posted_videos := []; data_file := StoreMissing;
     trace := [] |}.

Definition page_one : json :=
  JObj [("page_id", JStr "111"); ("access_token", JStr "tok1"); ("page_name", JStr "Page One")].

Definition page_two : json :=
  JObj [("page_id", JStr "222"); ("access_token", JStr "tok2"); ("page_name", JStr "Page Two")].

Definition page_three : json :=
  JObj [("page_id", JStr "333"); ("access_token", JStr "tok3"); ("page_name", JStr "Page Three")].

(** A video page of two minutes and five seconds whose media is an mp4. *)
Definition long_video_page : page_html :=
  {| h1_title := Some "Judul"; title_tag := None; body_text := Some "Isi berita";
     duration_marker := Some "02:05";
     meta_keywords := Some (Some "berita, video viral");
     extracted_video_url := Some "https://cdn.detik.com/v1.mp4" |}.

(** One feed entry, one page, everything answers well. *)
Definition happy_oracle : oracle :=
  {| fb_pages_file := fun _ => CfgJson (JList [page_one]);
     ledger_write := fun _ => WriteOk;
     feed_hrefs := fun _ => inr ["/detikupdate/video-1"];
     url_join := fun _ href => "https://20.detik.com" +:+ href;
     detail_page := fun _ _ => inr long_video_page;
     now_iso := fun _ => "2025-01-01T00:00:00";
     ytdlp := fun _ _ => inr "downloaded_videos/v1.mp4";
     ffmpeg := fun _ _ _ => None;
     http_validate := fun _ _ => Reply 200 "" (inr None);
     http_reel_start := fun _ _ => Reply 200 "" (inr (Some "900"));
     http_reel_transfer := fun _ _ _ _ => Reply 200 "" (inr None);
     http_reel_finish := fun _ _ _ _ => Reply 200 "" (inr None);
     http_regular := fun _ _ _ _ => Reply 200 "" (inr (Some "901")) |}.

Definition video_one : string := "https://20.detik.com/detikupdate/video-1".

(** The details [get_video_details] builds from [long_video_page]. *)
Definition details_one : details :=
  {| title := "Judul"; description := "Isi berita"; duration := 125;
     keywords := "#berita #videoviral";
     source_url := "https://cdn.detik.com/v1.mp4";
     scraped_at := "2025-01-01T00:00:00"; posted_to := None |}.

(** A ledger that already holds [details_one]. *)
Definition state_with_one : state :=
  {| clock := 0; storage := ∅; posted_videos := [Posted details_one];
     data_file := StoreHolds [Posted details_one]; trace := [] |}.

(** A page config whose three fields are there and empty. *)
Definition blank_page : json :=
  JObj [("page_id", JStr ""); ("access_token", JStr ""); ("page_name", JStr "")].

Definition set_fb_pages_file (f : nat -> cfg_source) (o : oracle) : oracle :=
  {| fb_pages_file := f; ledger_write := ledger_write o; feed_hrefs := feed_hrefs o;
     url_join := url_join o; detail_page := detail_page o; now_iso := now_iso o;
     ytdlp := ytdlp o; ffmpeg := ffmpeg o; http_validate := http_validate o;
     http_reel_start := http_reel_start o; http_reel_transfer := http_reel_transfer o;
     http_reel_finish := http_reel_finish o; http_regular := http_regular o |}.

Definition set_http_validate (f : nat -> uploader -> http_reply) (o : oracle) : oracle :=
  {| fb_pages_file := fb_pages_file o; ledger_write := ledger_write o;
     feed_hrefs := feed_hrefs o; url_join := url_join o; detail_page := detail_page o;
     now_iso := now_iso o; ytdlp := ytdlp o; ffmpeg := ffmpeg o; http_validate := f;
     http_reel_start := http_reel_start o; http_reel_transfer := http_reel_transfer o;
     http_reel_finish := http_reel_finish o; http_regular := http_regular o |}.

(** Every token is refused. *)
Definition rejecting_oracle : oracle :=
  set_http_validate (fun _ _ => Reply 401 "" (inr None)) happy_oracle.

Definition rejected_results : list upload_result :=
  [{| res_page_name := JStr "Page One"; res_status := StFailed; res_post_id := None;
      res_error := Some InvalidAccessToken |}].

Definition set_detail_page (f : nat -> string -> string + page_html) (o : oracle) : oracle :=
  {| fb_pages_file := fb_pages_file o; ledger_write := ledger_write o;
     feed_hrefs := feed_hrefs o; url_join := url_join o; detail_page := f;
     now_iso := now_iso o; ytdlp := ytdlp o; ffmpeg := ffmpeg o;
     http_validate := http_validate o;
     http_reel_start := http_reel_start o; http_reel_transfer := http_reel_transfer o;
     http_reel_finish := http_reel_finish o; http_regular := http_regular o |}.

(** A video page whose duration marker reads neither way. *)
Definition live_video_page : page_html :=
  {| h1_title := Some "Siaran"; title_tag := None; body_text := None;
     duration_marker := Some "LIVE"; meta_keywords := None;
     extracted_video_url := Some "https://cdn.detik.com/live.m3u8" |}.

Definition live_oracle : oracle :=
  set_detail_page (fun _ _ => inr live_video_page) happy_oracle.

Definition set_http_reel_start (f : nat -> uploader -> http_reply) (o : oracle) : oracle :=
  {| fb_pages_file := fb_pages_file o; ledger_write := ledger_write o;
     feed_hrefs := feed_hrefs o; url_join := url_join o; detail_page := detail_page o;
     now_iso := now_iso o; ytdlp := ytdlp o; ffmpeg := ffmpeg o;
     http_validate := http_validate o;
     http_reel_start := f; http_reel_transfer := http_reel_transfer o;
     http_reel_finish := http_reel_finish o; http_regular := http_regular o |}.

Definition set_http_reel_finish (f : nat -> uploader -> string -> string -> http_reply)
    (o : oracle) : oracle :=
  {| fb_pages_file := fb_pages_file o; ledger_write := ledger_write o;
     feed_hrefs := feed_hrefs o; url_join := url_join o; detail_page := detail_page o;
     now_iso := now_iso o; ytdlp := ytdlp o; ffmpeg := ffmpeg o;
     http_validate := http_validate o;
     http_reel_start := http_reel_start o; http_reel_transfer := http_reel_transfer o;
     http_reel_finish := f; http_regular := http_regular o |}.

Definition set_http_regular (f : nat -> uploader -> string -> string -> http_reply)
    (o : oracle) : oracle :=
  {| fb_pages_file := fb_pages_file o; ledger_write := ledger_write o;
     feed_hrefs := feed_hrefs o; url_join := url_join o; detail_page := detail_page o;
     now_iso := now_iso o; ytdlp := ytdlp o; ffmpeg := ffmpeg o;
     http_validate := http_validate o;
     http_reel_start := http_reel_start o; http_reel_transfer := http_reel_transfer o;
     http_reel_finish := http_reel_finish o; http_regular := f |}.

(** The start request is answered without a video id. *)
Definition no_session_oracle : oracle :=
  set_http_reel_start (fun _ _ => Reply 200 "{}" (inr None)) happy_oracle.

(** The finish request is refused. *)
Definition publish_refused_oracle : oracle :=
  set_http_reel_finish (fun _ _ _ _ => Reply 400 "refused" (inr None)) happy_oracle.

Definition reel_file : string := "downloaded_videos/reel_v1.mp4".

(** The converted file is on disk. *)
Definition state_with_reel : state :=
  {| clock := 0; storage := {[reel_file]}; posted_videos := []; data_file := StoreMissing;
     trace := [] |}.

Definition uploader_one : uploader :=
  {| page_id := JStr "111"; access_token := JStr "tok1"; page_name := JStr "Page One" |}.

Definition no_post_id_result (name : json) : upload_result :=
  {| res_page_name := name; res_status := StFailed; res_post_id := None;
     res_error := Some NoPostId |}.

(** Three pages; the regular upload to the second one is refused. *)
Definition three_pages_oracle : oracle :=
  set_http_regular
    (fun _ u _ _ =>
       match page_id u with
       | JStr "222" => Reply 500 "refused" (inr None)
       | _ => Reply 200 "" (inr (Some "901"))
       end)
    (set_fb_pages_file (fun _ => CfgJson (JList [page_one; page_two; page_three]))
                       happy_oracle).

(** The downloaded file is on disk. *)
Definition state_with_video : state :=
  {| clock := 0; storage := {["downloaded_videos/v1.mp4"]}; posted_videos := [];
     data_file := StoreMissing; trace := [] |}.

Definition blank_config_oracle : oracle :=
  set_fb_pages_file (fun _ => CfgJson (JList [blank_page])) happy_oracle.

(** ** Vocabulary of the statements *)

(** The string locators of the entries of a ledger, in order. *)
Definition locators (posted : list ledger_entry) : list string :=
  omap (fun video => match entry_source_url video with
                     | Some (JStr s) => Some s
                     | _ => None
                     end) posted.

(** [Ledger.contains] *)
Definition contains (posted : list ledger_entry) (locator : string) : bool :=
  existsb (source_url_is locator) posted.

Inductive kind : Type :=
| KConfig | KWrite | KFeed | KDetails | KDownload | KConvert | KRemove
| KValidate | KReel | KRegular | KPrint.

Definition kind_of (e : event) : kind :=
  match e with
  | EvReadConfig => KConfig
  | EvWriteLedger => KWrite
  | EvScrapeFeed => KFeed
  | EvFetchDetails _ => KDetails
  | EvDownload _ => KDownload
  | EvConvert _ => KConvert
  | EvRemove _ => KRemove
  | EvValidate _ => KValidate
  | EvReelStart _ | EvReelTransfer _ _ | EvReelFinish _ _ => KReel
  | EvRegularPost _ => KRegular
  | EvPrint _ => KPrint
  end.

Definition kind_eqb (a b : kind) : bool :=
  match a, b with
  | KConfig, KConfig | KWrite, KWrite | KFeed, KFeed | KDetails, KDetails
  | KDownload, KDownload | KConvert, KConvert | KRemove, KRemove
  | KValidate, KValidate | KReel, KReel | KRegular, KRegular | KPrint, KPrint => true
  | _, _ => false
  end.

Definition has (ks : list kind) (k : kind) : bool := existsb (kind_eqb k) ks.

Definition allowed (ks : list kind) (e : event) : bool := has ks (kind_of e).

(** Some event of [evs] is of kind [k]. *)
Definition has_kind (k : kind) (evs : list event) : bool :=
  existsb (fun e => kind_eqb (kind_of e) k) evs.

Definition all_kinds : list kind :=
  [KConfig; KWrite; KFeed; KDetails; KDownload; KConvert; KRemove; KValidate;
   KReel; KRegular; KPrint].

(** Everything but a write of the ledger file. *)
Definition nowrite_kinds : list kind :=
  [KConfig; KFeed; KDetails; KDownload; KConvert; KRemove; KValidate;
   KReel; KRegular; KPrint].

(** What a long video may cause, and what a short one may. *)
Definition regular_kinds : list kind :=
  [KConfig; KWrite; KDetails; KDownload; KRemove; KValidate; KRegular; KPrint].

Definition reel_kinds : list kind :=
  [KConfig; KWrite; KDetails; KDownload; KConvert; KRemove; KValidate; KReel; KPrint].

(** [st'] is [st] after more events, all of kinds [ks]. *)
Definition extends (ks : list kind) (st st' : state) : Prop :=
  exists l, trace st' = trace st ++ l /\ forallb (allowed ks) l = true.

(** The events of [st'] that [st] does not have yet. *)
Definition new_events (st st' : state) : list event :=
  drop (length (trace st)) (trace st').

Definition same_ledger (st st' : state) : Prop :=
  posted_videos st' = posted_videos st /\ data_file st' = data_file st.

(** Every run of [m] relates the state before to the state after. *)
Definition steps {A} (R : state -> state -> Prop) (m : M A) : Prop :=
  forall st, R st (m st).2.

(** The page ids whose token was put to the test, in order. *)
Definition validations (l : list event) : list json :=
  omap (fun e => match e with EvValidate pid => Some pid | _ => None end) l.

(** [page[key]] where it does not raise. *)
Definition field_of (page : json) (key : string) : option json :=
  match page with
  | JObj kvs => dict_get kvs key
  | _ => None
  end.

Definition has_field (page : json) (key : string) : bool :=
  match field_of page key with Some _ => true | None => false end.

Definition json_nonempty (v : json) : bool :=
  match v with
  | JNull | JStr EmptyString | JList [] | JObj [] => false
  | _ => true
  end.

Definition field_nonempty (page : json) (key : string) : bool :=
  match field_of page key with Some v => json_nonempty v | None => false end.

(** A destination in the spec's words: the three required fields are there. *)
Definition is_destination (page : json) : bool :=
  forallb (has_field page) required_fields.

(** The configuration in the spec's words: present, a list, no entry lacking
    a required field. *)
Definition config_accepted (src : cfg_source) : bool :=
  match src with
  | CfgJson (JList pages) => forallb is_destination pages
  | _ => false
  end.

Definition is_config_error (e : exn) : bool :=
  match e with
  | FileNotFoundError _ | ConfigLoadError _ => true
  | _ => false
  end.

(** The three phases of the reel protocol. *)
Inductive phase : Type := PhaseStart | PhaseTransfer | PhaseFinish.

Definition reply_ok (r : http_reply) : bool :=
  match r with
  | Reply status_code _ _ => negb (is_http_error status_code)
  | NetError _ => false
  end.

(** The session id a start reply carries, if it carries one. *)
Definition session_of (r : http_reply) : option string :=
  match r with
  | Reply status_code _ (inr (Some (String c s))) =>
      if is_http_error status_code then None else Some (String c s)
  | _ => None
  end.

(** In the spec's words: which phase fails for an upload that starts at
    clock [t] with the files [files] on disk; [None] when none does. *)
Definition failing_phase (o : oracle) (self : uploader) (video_path description : string)
    (t : nat) (files : gset string) : option phase :=
  match session_of (http_reel_start o t self) with
  | None => Some PhaseStart
  | Some vid =>
      if negb (bool_decide (video_path ∈ files)) then Some PhaseTransfer
      else if negb (reply_ok (http_reel_transfer o (S t) self vid video_path))
      then Some PhaseTransfer
      else if negb (reply_ok (http_reel_finish o (S (S t)) self vid description))
      then Some PhaseFinish
      else None
  end.

Definition phase_event (p : phase) (e : event) : bool :=
  match p, e with
  | PhaseStart, EvReelStart _ => true
  | PhaseTransfer, EvReelTransfer _ _ => true
  | PhaseFinish, EvReelFinish _ _ => true
  | _, _ => false
  end.

Definition later_phases (p : phase) : list phase :=
  match p with
  | PhaseStart => [PhaseTransfer; PhaseFinish]
  | PhaseTransfer => [PhaseFinish]
  | PhaseFinish => []
  end.

(** ** Generic facts about runs *)

Section Steps.
Context (R : state -> state -> Prop) {HR : PreOrder R}.

Lemma steps_ret {A} (a : A) : steps R (ret a).
Proof. intros st. reflexivity. Qed.

Lemma steps_raise {A} (e : exn) : steps R (@raise A e).
Proof. intros st. reflexivity. Qed.

Lemma steps_gets {A} (f : state -> A) : steps R (gets f).
Proof. intros st. reflexivity. Qed.

Lemma steps_bind {A B} (m : M A) (k : A -> M B) :
  steps R m -> (forall a, steps R (k a)) -> steps R (bind m k).
Proof.
  intros Hm Hk st. unfold bind. specialize (Hm st).
  destruct (m st) as [[e|a] st1]; simpl in *; [assumption|].
  etransitivity; [exact Hm | apply Hk].
Qed.

Lemma steps_try {A} (m : M A) (h : exn -> M A) :
  steps R m -> (forall e, steps R (h e)) -> steps R (try_except m h).
Proof.
  intros Hm Hh st. unfold try_except. specialize (Hm st).
  destruct (m st) as [[e|a] st1]; simpl in *; [|assumption].
  etransitivity; [exact Hm | apply Hh].
Qed.

Lemma steps_fold_m {A S} (body : S -> A -> M S) (l : list A) :
  (forall acc x, steps R (body acc x)) -> forall acc, steps R (fold_m body l acc).
Proof.
  intros Hb. induction l as [|x l IH]; intros acc; simpl.
  - apply steps_ret.
  - apply steps_bind; [apply Hb | intros; apply IH].
Qed.

Lemma steps_subscript page key : steps R (subscript page key).
Proof.
  unfold subscript. destruct page; try apply steps_raise.
  destruct (dict_get kvs key); [apply steps_ret | apply steps_raise].
Qed.

Lemma steps_py_in field page : steps R (py_in field page).
Proof. destruct page; simpl; first [apply steps_ret | apply steps_raise]. Qed.

Lemma steps_check_fields page fields : steps R (check_fields page fields).
Proof.
  induction fields as [|f fs IH]; simpl; [apply steps_ret|].
  apply steps_bind; [apply steps_py_in|].
  intros []; [exact IH | apply steps_raise].
Qed.

Lemma steps_check_pages pages : steps R (check_pages pages).
Proof.
  induction pages as [|p ps IH]; cbn [check_pages]; [apply steps_ret|].
  apply steps_bind; [apply steps_check_fields | intros; exact IH].
Qed.

Lemma steps_FacebookUploader page : steps R (FacebookUploader page).
Proof.
  unfold FacebookUploader.
  repeat (apply steps_bind; [apply steps_subscript | intros ?]).
  apply steps_ret.
Qed.

Lemma steps_checked r : steps R (checked r).
Proof.
  destruct r as [msg|code text f]; simpl; [apply steps_raise|].
  destruct (is_http_error code); [apply steps_raise | apply steps_ret].
Qed.

Lemma steps_json_get f : steps R (json_get f).
Proof. destruct f; simpl; [apply steps_raise | apply steps_ret]. Qed.
End Steps.

#[global] Instance extends_preorder ks : PreOrder (extends ks).
Proof.
  split.
  - intros st. exists []. by rewrite app_nil_r.
  - intros a b c [l1 [H1 F1]] [l2 [H2 F2]]. exists (l1 ++ l2). split.
    + by rewrite H2, H1, app_assoc.
    + by rewrite forallb_app, F1, F2.
Qed.

#[global] Instance same_ledger_preorder : PreOrder same_ledger.
Proof.
  split.
  - by intros st.
  - intros a b c [H1 H2] [H3 H4]. split; congruence.
Qed.

(** ** The ledger (class VideoManager) *)

Lemma source_url_is_locator u video :
  source_url_is u video = true <->
  (fun v => match entry_source_url v with Some (JStr s) => Some s | _ => None end) video = Some u.
Proof.
  unfold source_url_is. destruct (entry_source_url video) as [[]|]; try (split; congruence).
  split.
  - intros H. apply String.eqb_eq in H. by subst.
  - intros [= ->]. apply String.eqb_refl.
Qed.

Lemma contains_locators posted u :
  contains posted u = true <-> u ∈ locators posted.
Proof.
  unfold contains, locators. rewrite list_elem_of_omap. split.
  - intros H. apply existsb_exists in H as [v [Hin Hv]].
    exists v. split; [by apply list_elem_of_In | by apply source_url_is_locator].
  - intros [v [Hin Hv]]. apply existsb_exists. exists v.
    split; [by apply list_elem_of_In | by apply source_url_is_locator].
Qed.

Lemma locators_snoc posted e :
  locators (posted ++ [Posted e]) = locators posted ++ [source_url e].
Proof. unfold locators. by rewrite omap_app. Qed.

Lemma filter_absent posted u :
  u ∉ locators posted -> List.filter (source_url_is u) posted = [].
Proof.
  intros H. induction posted as [|v l IH]; [done|]. simpl.
  destruct (source_url_is u v) eqn:E.
  - exfalso. apply H. apply contains_locators. unfold contains. simpl. by rewrite E.
  - apply IH. intros Hin. apply H. apply contains_locators.
    unfold contains. simpl. rewrite E. simpl. by apply contains_locators.
Qed.

Lemma filter_unique posted u :
  NoDup (locators posted) -> u ∈ locators posted ->
  length (List.filter (source_url_is u) posted) = 1%nat.
Proof.
  induction posted as [|v l IH]; intros Hnd Hin.
  - by apply elem_of_nil in Hin.
  - simpl. destruct (source_url_is u v) eqn:E.
    + apply source_url_is_locator in E. unfold locators in Hnd, Hin.
      simpl in Hnd, Hin. rewrite E in Hnd, Hin. apply NoDup_cons in Hnd as [Hn _].
      simpl. by rewrite (filter_absent l u).
    + apply IH.
      * unfold locators in Hnd |- *. simpl in Hnd.
        destruct (match entry_source_url v with Some (JStr s) => Some s | _ => None end);
          [by apply NoDup_cons in Hnd as [_ ?] | done].
      * assert (Hc : contains (v :: l) u = true) by by apply contains_locators.
        unfold contains in Hc. simpl in Hc. rewrite E in Hc. by apply contains_locators.
Qed.

Lemma add_posted_video_present o e st :
  contains (posted_videos st) (source_url e) = true ->
  add_posted_video o e st = (inr tt, st).
Proof.
  intros H. unfold add_posted_video, is_video_posted, bind, gets, ret.
  fold (contains (posted_videos st) (source_url e)). by rewrite H.
Qed.

Lemma add_posted_video_posted o e st :
  posted_videos (add_posted_video o e st).2 =
  if contains (posted_videos st) (source_url e) then posted_videos st
  else posted_videos st ++ [Posted e].
Proof.
  unfold add_posted_video, is_video_posted, bind, gets, ret.
  fold (contains (posted_videos st) (source_url e)).
  destruct (contains (posted_videos st) (source_url e)); [done|]. simpl.
  unfold save_posted_videos, bind, ask. simpl.
  by destruct (ledger_write o (clock st)).
Qed.

Lemma add_posted_video_returns o e st : (add_posted_video o e st).1 = inr tt.
Proof.
  unfold add_posted_video, is_video_posted, bind, gets, ret.
  destruct (existsb _ _); [done|]. simpl.
  unfold save_posted_videos, bind, ask. simpl.
  by destruct (ledger_write o (clock st)).
Qed.

Lemma contains_after_add o e st :
  contains (posted_videos (add_posted_video o e st).2) (source_url e) = true.
Proof.
  rewrite add_posted_video_posted.
  destruct (contains (posted_videos st) (source_url e)) eqn:E; [done|].
  apply contains_locators. rewrite locators_snoc. set_solver.
Qed.

(** C3.  [add_posted_video] always returns; when an entry with the same
    [source_url] is already stored it changes nothing at all; it keeps the
    locators of the ledger pairwise distinct; and a second call with an entry
    of the same [source_url] changes nothing, so that exactly one stored
    entry carries that locator. *)
Theorem add_posted_video_keeps_first (o : oracle) (st : state) (e : details) :
  let st' := (add_posted_video o e st).2 in
  (add_posted_video o e st).1 = inr tt /\
  (contains (posted_videos st) (source_url e) = true ->
   add_posted_video o e st = (inr tt, st)) /\
  (NoDup (locators (posted_videos st)) -> NoDup (locators (posted_videos st'))) /\
  (forall e2, source_url e2 = source_url e ->
     add_posted_video o e2 st' = (inr tt, st') /\
     (NoDup (locators (posted_videos st)) ->
      length (List.filter (source_url_is (source_url e))
                          (posted_videos (add_posted_video o e2 st').2)) = 1%nat)).
Proof.
  intros st'.
  assert (Hnd : NoDup (locators (posted_videos st)) -> NoDup (locators (posted_videos st'))).
  { intros Hnd. subst st'. rewrite add_posted_video_posted.
    destruct (contains (posted_videos st) (source_url e)) eqn:E; [done|].
    rewrite locators_snoc. apply NoDup_app. split; [done|]. split.
    - intros x Hx Hx'. apply list_elem_of_singleton in Hx'. subst x.
      apply contains_locators in Hx. congruence.
    - apply NoDup_singleton. }
  split; [apply add_posted_video_returns|].
  split; [apply add_posted_video_present|].
  split; [exact Hnd|].
  intros e2 He2.
  assert (Hsame : add_posted_video o e2 st' = (inr tt, st')).
  { apply add_posted_video_present. rewrite He2. apply contains_after_add. }
  split; [exact Hsame|].
  intros Hnd0. rewrite Hsame. simpl. apply filter_unique; [by apply Hnd|].
  apply contains_locators. apply contains_after_add.
Qed.

Lemma add_posted_video_keeps_first_witness :
  add_posted_video happy_oracle details_one state_with_one = (inr tt, state_with_one) /\
  NoDup (locators (posted_videos (add_posted_video happy_oracle details_one state_with_one).2)) /\
  length (List.filter (source_url_is (source_url details_one))
            (posted_videos
               (add_posted_video happy_oracle details_one
                  (add_posted_video happy_oracle details_one state_with_one).2).2)) = 1%nat.
Proof.
  assert (Hnd : NoDup (locators (posted_videos state_with_one))).
  { apply NoDup_singleton. }
  destruct (add_posted_video_keeps_first happy_oracle state_with_one details_one)
    as (_ & Hpresent & Hinv & Htwice).
  split; [apply Hpresent; reflexivity|].
  split; [apply Hinv; exact Hnd|].
  destruct (Htwice details_one eq_refl) as [_ Hone]. apply Hone. exact Hnd.
Defined.

(** C9, as stated, fails: a missing ledger file gives the empty ledger and
    nothing is printed. *)
Lemma missing_ledger_is_not_logged :
  ~ (forall st, (forall entries, data_file st <> StoreHolds entries) ->
       (load_posted_videos st).1 = inr [] /\
       exists line, EvPrint line ∈ new_events st (load_posted_videos st).2).
Proof.
  intros H. destruct (H init_state) as [_ [line Hin]]; [discriminate|].
  vm_compute in Hin. by apply elem_of_nil in Hin.
Qed.

(** C9, amended.  [load_posted_videos] never raises.  A missing or an empty
    ledger file gives the empty list and leaves no trace; a file that cannot
    be read or decoded gives the empty list and one printed line; any other
    file gives its entries.  After [VideoManager()] on a missing, empty or
    unreadable file no locator is posted. *)
Theorem load_posted_videos_recovers (st : state) :
  match data_file st with
  | StoreMissing | StoreEmpty =>
      load_posted_videos st = (inr [], st) /\
      forall locator, (bind VideoManager (fun _ => is_video_posted locator) st).1 = inr false
  | StoreUnreadable msg =>
      load_posted_videos st = (inr [], (print (LogLedgerLoadError msg) st).2) /\
      new_events st (load_posted_videos st).2 = [EvPrint (LogLedgerLoadError msg)] /\
      forall locator, (bind VideoManager (fun _ => is_video_posted locator) st).1 = inr false
  | StoreHolds entries => load_posted_videos st = (inr entries, st)
  end.
Proof.
  unfold load_posted_videos, VideoManager, load_posted_videos, is_video_posted,
    bind, gets, ret, new_events.
  destruct (data_file st) eqn:E; simpl; rewrite ?E; simpl; try done.
  split; [done|]. split; [|done].
  by rewrite drop_app_length.
Qed.

(** ** The destination registry (class FacebookPageManager) *)

Lemma check_fields_obj kvs fields st :
  (forallb (has_field (JObj kvs)) fields = true /\
   check_fields (JObj kvs) fields st = (inr tt, st)) \/
  (forallb (has_field (JObj kvs)) fields = false /\
   exists msg, check_fields (JObj kvs) fields st = (inl (ValueError msg), st)).
Proof.
  induction fields as [|f fs IH]; [by left|].
  cbn [check_fields forallb]. unfold bind at 1. cbn [py_in ret].
  unfold has_field at 1 3, field_of, dict_has.
  destruct (dict_get kvs f); cbn [andb]; [exact IH|].
  right. split; [done|]. by eexists.
Qed.

Lemma check_pages_obj pages st :
  forallb is_obj pages = true ->
  (forallb is_destination pages = true /\ check_pages pages st = (inr tt, st)) \/
  (forallb is_destination pages = false /\
   exists msg, check_pages pages st = (inl (ValueError msg), st)).
Proof.
  induction pages as [|p ps IH]; intros Hobj; [by left|].
  cbn [forallb] in Hobj. apply andb_true_iff in Hobj as [Hp Hps].
  destruct p; try discriminate.
  cbn [check_pages forallb]. unfold bind. unfold is_destination at 1 3.
  destruct (check_fields_obj kvs required_fields st) as [[-> ->]|[-> [msg ->]]].
  - cbn [andb]. exact (IH Hps).
  - right. split; [done|]. by eexists.
Qed.

(** C8, as stated, fails: a configuration whose three fields are there and
    empty is accepted. *)
Lemma load_pages_accepts_empty_fields :
  ~ (forall o st pages, (load_pages o st).1 = inr pages ->
       forall page, page ∈ pages ->
       forallb (field_nonempty page) required_fields = true).
Proof.
  intros H.
  specialize (H blank_config_oracle init_state [blank_page] eq_refl blank_page).
  discriminate H. apply list_elem_of_singleton. reflexivity.
Qed.

(** C8, amended.  For a configuration whose entries, when it is a list, are
    all objects: [load_pages] raises a configuration error exactly when the
    file is missing, is not a readable JSON list, or some entry lacks one of
    the keys page_id, access_token, page_name; otherwise it returns the whole
    list of the file, every entry of which has the three keys (the values may
    be empty). *)
Theorem load_pages_accepts_exactly (o : oracle) (st : state)
    (Hobj : forall pages, fb_pages_file o (clock st) = CfgJson (JList pages) ->
            forallb is_obj pages = true) :
  let src := fb_pages_file o (clock st) in
  (config_accepted src = false <->
   exists e, (load_pages o st).1 = inl e /\ is_config_error e = true) /\
  (config_accepted src = true <->
   exists pages, src = CfgJson (JList pages) /\ (load_pages o st).1 = inr pages) /\
  (forall pages, (load_pages o st).1 = inr pages ->
   forallb is_destination pages = true).
Proof.
  intros src. subst src. unfold load_pages, bind, ask, try_except. cbn [fst snd].
  destruct (fb_pages_file o (clock st)) as [|msg|j] eqn:E; cbn [config_accepted fst snd].
  - split; [|split]; [split; [by eexists|done] | split; [done|by intros (?&?&?)] | done].
  - split; [|split]; [split; [by eexists|done] | split; [done|by intros (?&?&?)] | done].
  - destruct j as [| | | |pages|];
      try (split; [|split];
           [split; [by eexists|done] | split; [done|by intros (?&?&?)] | done]).
    specialize (Hobj pages eq_refl).
    match goal with |- context [check_pages pages ?s] =>
      destruct (check_pages_obj pages s Hobj) as [[Ha ->]|[Ha [m ->]]] end;
      rewrite Ha; cbn [fst snd raise ret].
    + split; [|split].
      * split; [done|by intros (?&?&?)].
      * split; [by exists pages|done].
      * by intros ? [= <-].
    + split; [|split].
      * split; [by eexists|done].
      * split; [done|by intros (?&?&?)].
      * done.
Qed.

Lemma load_pages_accepts_exactly_witness :
  config_accepted (fb_pages_file happy_oracle 0) = true /\
  (load_pages happy_oracle init_state).1 = inr [page_one] /\
  forallb is_destination [page_one] = true.
Proof.
  assert (Hobj : forall pages,
             fb_pages_file happy_oracle (clock init_state) = CfgJson (JList pages) ->
             forallb is_obj pages = true).
  { intros pages [= <-]. reflexivity. }
  destruct (load_pages_accepts_exactly happy_oracle init_state Hobj) as (_ & Hacc & Hdest).
  split; [reflexivity|]. split; [reflexivity|].
  apply Hdest. reflexivity.
Defined.

(** ** What each function may leave in the trace *)

Lemma ext_emit ks e : allowed ks e = true -> steps (extends ks) (emit e).
Proof. intros H st. exists [e]. simpl. by rewrite H. Qed.

Lemma ext_ask {A} ks (q : nat -> A) e : allowed ks e = true -> steps (extends ks) (ask q e).
Proof. intros H st. exists [e]. simpl. by rewrite H. Qed.

Lemma ext_set_storage ks s : steps (extends ks) (set_storage s).
Proof. intros st. exists []. simpl. by rewrite app_nil_r. Qed.

Lemma ext_set_posted_videos ks l : steps (extends ks) (set_posted_videos l).
Proof. intros st. exists []. simpl. by rewrite app_nil_r. Qed.

Lemma ext_set_data_file ks s : steps (extends ks) (set_data_file s).
Proof. intros st. exists []. simpl. by rewrite app_nil_r. Qed.

Ltac ext_prims :=
  first [ apply ext_set_storage | apply ext_set_posted_videos | apply ext_set_data_file
        | apply ext_emit; assumption | apply ext_ask; assumption ].

Ltac steps_go prims :=
  repeat (cbv zeta;
          first [ prims
                | apply steps_ret; exact _ | apply steps_raise; exact _
                | apply steps_gets; exact _
                | apply steps_subscript; exact _ | apply steps_FacebookUploader; exact _
                | apply steps_checked; exact _ | apply steps_json_get; exact _
                | apply steps_check_pages; exact _
                | apply steps_bind; [exact _ | | intros ?]
                | apply steps_try; [exact _ | | intros ?]
                | apply steps_fold_m; [exact _ | intros ? ?]
                | match goal with
                  | |- steps _ (match ?x with _ => _ end) => destruct x
                  | |- steps _ (if ?x then _ else _) => destruct x
                  end ]).

Lemma ext_load_pages ks o : has ks KConfig = true -> steps (extends ks) (load_pages o).
Proof. intros. unfold load_pages. steps_go ext_prims. Qed.

Lemma ext_load_posted_videos ks : has ks KPrint = true -> steps (extends ks) load_posted_videos.
Proof. intros. unfold load_posted_videos, print. steps_go ext_prims. Qed.

Lemma ext_save_posted_videos ks o :
  has ks KWrite = true -> has ks KPrint = true -> steps (extends ks) (save_posted_videos o).
Proof. intros. unfold save_posted_videos, print. steps_go ext_prims. Qed.

Lemma ext_is_video_posted ks u : steps (extends ks) (is_video_posted u).
Proof. unfold is_video_posted. steps_go ext_prims. Qed.

Lemma ext_add_posted_video ks o d :
  has ks KWrite = true -> has ks KPrint = true -> steps (extends ks) (add_posted_video o d).
Proof.
  intros. unfold add_posted_video.
  steps_go ltac:(first [ext_prims | apply ext_is_video_posted | by apply ext_save_posted_videos]).
Qed.

Lemma ext_os_remove ks path : has ks KRemove = true -> steps (extends ks) (os_remove path).
Proof. intros. unfold os_remove. steps_go ext_prims. Qed.

Lemma ext_create_file ks path : steps (extends ks) (create_file path).
Proof. unfold create_file. steps_go ext_prims. Qed.

Lemma ext_open_rb ks path : steps (extends ks) (open_rb path).
Proof. unfold open_rb. steps_go ext_prims. Qed.

Lemma ext_download_video ks o u :
  has ks KDownload = true -> has ks KPrint = true -> steps (extends ks) (download_video o u).
Proof.
  intros. unfold download_video, print.
  steps_go ltac:(first [ext_prims | apply ext_create_file]).
Qed.

Lemma ext_convert_to_reel_format ks o input :
  has ks KConvert = true -> has ks KPrint = true ->
  steps (extends ks) (convert_to_reel_format o input).
Proof.
  intros. unfold convert_to_reel_format, print.
  steps_go ltac:(first [ext_prims | apply ext_create_file]).
Qed.

Lemma ext_validate_token ks o u :
  has ks KValidate = true -> has ks KPrint = true -> steps (extends ks) (validate_token o u).
Proof. intros. unfold validate_token, print. steps_go ext_prims. Qed.

Lemma ext_upload_reel ks o u path desc :
  has ks KReel = true -> has ks KPrint = true ->
  steps (extends ks) (_upload_reel o u path desc).
Proof.
  intros. unfold _upload_reel, print.
  steps_go ltac:(first [ext_prims | apply ext_open_rb]).
Qed.

Lemma ext_upload_regular_video ks o u path desc :
  has ks KRegular = true -> has ks KPrint = true ->
  steps (extends ks) (_upload_regular_video o u path desc).
Proof.
  intros. unfold _upload_regular_video, print.
  steps_go ltac:(first [ext_prims | apply ext_open_rb]).
Qed.

Lemma ext_upload_to_page ks o path desc (is_reel : bool) results page :
  has ks KValidate = true -> has ks KPrint = true ->
  has ks (if is_reel then KReel else KRegular) = true ->
  steps (extends ks) (upload_to_page o path desc is_reel results page).
Proof.
  intros ? ? Hk. unfold upload_to_page, print.
  steps_go ltac:(first [ ext_prims | by apply ext_validate_token
                       | by apply ext_upload_reel | by apply ext_upload_regular_video ]).
Qed.

Lemma ext_upload_to_all_pages ks o u path desc (is_reel : bool) :
  has ks KConfig = true -> has ks KValidate = true -> has ks KPrint = true ->
  has ks (if is_reel then KReel else KRegular) = true ->
  steps (extends ks) (upload_to_all_pages o u path desc is_reel).
Proof.
  intros. unfold upload_to_all_pages.
  steps_go ltac:(first [ by apply ext_load_pages | by apply ext_upload_to_page ]).
Qed.

Lemma steps_parse_duration R `{!PreOrder R} marker : steps R (parse_duration marker).
Proof. unfold parse_duration. steps_go fail. Qed.

Lemma steps_parse_hashtags R `{!PreOrder R} meta : steps R (parse_hashtags meta).
Proof. unfold parse_hashtags. steps_go fail. Qed.

Lemma ext_get_video_details ks o link :
  has ks KDetails = true -> has ks KPrint = true ->
  steps (extends ks) (get_video_details o link).
Proof.
  intros. unfold get_video_details, print.
  steps_go ltac:(first [ ext_prims | apply steps_parse_duration; exact _
                       | apply steps_parse_hashtags; exact _ ]).
Qed.

Lemma ext_distribute_and_record ks o fb_pages d path (is_reel : bool) :
  has ks KConfig = true -> has ks KValidate = true -> has ks KPrint = true ->
  has ks KWrite = true -> has ks KRemove = true ->
  has ks (if is_reel then KReel else KRegular) = true ->
  steps (extends ks) (distribute_and_record o fb_pages d path is_reel).
Proof.
  intros. unfold distribute_and_record, print.
  steps_go ltac:(first [ ext_prims | by apply ext_upload_to_all_pages
                       | by apply ext_add_posted_video | by apply ext_os_remove ]).
Qed.

Lemma ext_process_downloaded ks o fb_pages d path :
  has ks KConfig = true -> has ks KValidate = true -> has ks KPrint = true ->
  has ks KWrite = true -> has ks KRemove = true ->
  (if duration d <=? 60 then has ks KConvert = true /\ has ks KReel = true
   else has ks KRegular = true) ->
  steps (extends ks) (process_downloaded o fb_pages d path).
Proof.
  intros ? ? ? ? ? Hd. unfold process_downloaded.
  destruct (duration d <=? 60); [destruct Hd|];
    steps_go ltac:(first [ ext_prims | by apply ext_distribute_and_record
                         | by apply ext_convert_to_reel_format | by apply ext_os_remove ]).
Qed.

Lemma ext_process_item o fb_pages link :
  steps (extends all_kinds) (process_item o fb_pages link).
Proof.
  unfold process_item, process_fetched, print.
  steps_go ltac:(first [ by apply ext_emit | apply ext_is_video_posted
                       | by apply ext_get_video_details | by apply ext_download_video
                       | apply ext_process_downloaded; first [done | by case_match] ]).
Qed.

Lemma ext_process_link o fb_pages n link :
  steps (extends all_kinds) (process_link o fb_pages n link).
Proof.
  unfold process_link, print.
  steps_go ltac:(first [ by apply ext_emit | apply ext_process_item ]).
Qed.

Lemma extends_new_events ks st st' :
  extends ks st st' ->
  trace st' = trace st ++ new_events st st' /\
  forallb (allowed ks) (new_events st st') = true.
Proof.
  intros [l [Hl Hall]]. unfold new_events. rewrite Hl, drop_app_length. by split.
Qed.

Lemma allowed_excludes ks k l :
  forallb (allowed ks) l = true -> has ks k = false -> has_kind k l = false.
Proof.
  intros Hall Hk. induction l as [|e l IH]; [done|].
  simpl in *. apply andb_true_iff in Hall as [He Hl]. rewrite (IH Hl), orb_false_r.
  destruct (kind_eqb (kind_of e) k) eqn:E; [|done].
  assert (kind_of e = k) as <- by (by destruct (kind_of e), k).
  unfold allowed in He. congruence.
Qed.

Lemma new_events_trans st st1 st2 l1 l2 :
  trace st1 = trace st ++ l1 -> trace st2 = trace st1 ++ l2 ->
  new_events st st2 = l1 ++ l2.
Proof.
  intros H1 H2. unfold new_events. by rewrite H2, H1, <- app_assoc, drop_app_length.
Qed.

(** ** What leaves the ledger alone *)

Lemma led_emit e : steps same_ledger (emit e).
Proof. by intros st. Qed.

Lemma led_ask {A} (q : nat -> A) e : steps same_ledger (ask q e).
Proof. by intros st. Qed.

Lemma led_set_storage s : steps same_ledger (set_storage s).
Proof. by intros st. Qed.

Ltac led_prims := first [ apply led_set_storage | apply led_emit | apply led_ask ].

Lemma led_load_pages o : steps same_ledger (load_pages o).
Proof. unfold load_pages. steps_go led_prims. Qed.

Lemma led_is_video_posted u : steps same_ledger (is_video_posted u).
Proof. unfold is_video_posted. steps_go led_prims. Qed.

Lemma led_os_remove path : steps same_ledger (os_remove path).
Proof. unfold os_remove. steps_go led_prims. Qed.

Lemma led_create_file path : steps same_ledger (create_file path).
Proof. unfold create_file. steps_go led_prims. Qed.

Lemma led_open_rb path : steps same_ledger (open_rb path).
Proof. unfold open_rb. steps_go led_prims. Qed.

Lemma led_download_video o u : steps same_ledger (download_video o u).
Proof. unfold download_video, print. steps_go ltac:(first [led_prims | apply led_create_file]). Qed.

Lemma led_convert_to_reel_format o input : steps same_ledger (convert_to_reel_format o input).
Proof.
  unfold convert_to_reel_format, print.
  steps_go ltac:(first [led_prims | apply led_create_file]).
Qed.

Lemma led_validate_token o u : steps same_ledger (validate_token o u).
Proof. unfold validate_token, print. steps_go led_prims. Qed.

Lemma led_upload_reel o u path desc : steps same_ledger (_upload_reel o u path desc).
Proof. unfold _upload_reel, print. steps_go ltac:(first [led_prims | apply led_open_rb]). Qed.

Lemma led_upload_regular_video o u path desc :
  steps same_ledger (_upload_regular_video o u path desc).
Proof.
  unfold _upload_regular_video, print.
  steps_go ltac:(first [led_prims | apply led_open_rb]).
Qed.

Lemma led_upload_to_page o path desc is_reel results page :
  steps same_ledger (upload_to_page o path desc is_reel results page).
Proof.
  unfold upload_to_page, print.
  steps_go ltac:(first [ led_prims | apply led_validate_token
                       | apply led_upload_reel | apply led_upload_regular_video ]).
Qed.

Lemma led_upload_to_all_pages o u path desc is_reel :
  steps same_ledger (upload_to_all_pages o u path desc is_reel).
Proof.
  unfold upload_to_all_pages.
  steps_go ltac:(first [ apply led_load_pages | apply led_upload_to_page ]).
Qed.

Lemma led_get_video_details o link : steps same_ledger (get_video_details o link).
Proof.
  unfold get_video_details, print.
  steps_go ltac:(first [ led_prims | apply steps_parse_duration; exact _
                       | apply steps_parse_hashtags; exact _ ]).
Qed.

(** ** The body of the loop over the links *)

Lemma bind_inv {A B} (m : M A) (k : A -> M B) st r st' :
  bind m k st = (inr r, st') ->
  exists a st1, m st = (inr a, st1) /\ k a st1 = (inr r, st').
Proof.
  unfold bind. destruct (m st) as [[e|a] st1]; [discriminate|]. intros H. by exists a, st1.
Qed.

Lemma no_success_count results :
  (forall r, r ∈ results -> res_status r <> StSuccess) -> success_count results = 0%nat.
Proof.
  intros H. unfold success_count. induction results as [|r l IH]; [done|].
  simpl. destruct (res_status r) eqn:E.
  - exfalso. apply (H r); [left | done].
  - apply IH. intros x Hx. apply H. by right.
  - apply IH. intros x Hx. apply H. by right.
Qed.

Lemma quiet_trans st st1 st2 :
  same_ledger st st1 /\ extends nowrite_kinds st st1 ->
  same_ledger st1 st2 /\ extends nowrite_kinds st1 st2 ->
  same_ledger st st2 /\ extends nowrite_kinds st st2.
Proof. intros [? ?] [? ?]. split; etransitivity; eauto. Qed.

Lemma quiet_of {A} (m : M A) st r st1 :
  steps same_ledger m -> steps (extends nowrite_kinds) m -> m st = (r, st1) ->
  same_ledger st st1 /\ extends nowrite_kinds st st1.
Proof. intros H1 H2 E. specialize (H1 st). specialize (H2 st). rewrite E in H1, H2. by split. Qed.

Lemma distribute_and_record_quiet o fb_pages d vp is_reel st x st' :
  distribute_and_record o fb_pages d vp is_reel st = (inr x, st') ->
  exists results, x = ExitDistributed d vp is_reel results /\
    (success_count results = 0%nat ->
     same_ledger st st' /\ extends nowrite_kinds st st').
Proof.
  unfold distribute_and_record. cbv zeta. intros H.
  apply bind_inv in H as (u & s1 & H1 & H).
  apply bind_inv in H as (results & s2 & H2 & H).
  apply bind_inv in H as (? & s3 & H3 & H).
  apply bind_inv in H as (? & s4 & H4 & H).
  injection H as <- <-. exists results. split; [done|]. intros Hz.
  rewrite Hz in H3. cbn [Nat.ltb Nat.leb] in H3.
  eapply quiet_trans; [|eapply quiet_trans; [|eapply quiet_trans]].
  - eapply quiet_of; [| |exact H1]; destruct fb_pages;
      steps_go ltac:(first [ext_prims | led_prims]).
  - eapply quiet_of; [| |exact H2];
      [apply led_upload_to_all_pages | by apply ext_upload_to_all_pages; try by destruct is_reel].
  - eapply quiet_of; [| |exact H3]; unfold print; [apply led_emit | by apply ext_emit].
  - eapply quiet_of; [| |exact H4]; unfold print.
    + steps_go ltac:(first [led_prims | apply led_os_remove]).
    + steps_go ltac:(first [by apply ext_emit | by apply ext_os_remove]).
Qed.

Lemma process_downloaded_quiet o fb_pages d path st d' vp is_reel results st' :
  process_downloaded o fb_pages d path st =
    (inr (ExitDistributed d' vp is_reel results), st') ->
  success_count results = 0%nat ->
  same_ledger st st' /\ extends nowrite_kinds st st'.
Proof.
  unfold process_downloaded. cbv zeta. intros H Hz.
  destruct (duration d <=? 60).
  - apply bind_inv in H as (v & s1 & H1 & H).
    apply bind_inv in H as (? & s2 & H2 & H).
    eapply quiet_trans; [|eapply quiet_trans].
    + eapply quiet_of; [| |exact H1];
        [apply led_convert_to_reel_format | by apply ext_convert_to_reel_format].
    + eapply quiet_of; [| |exact H2]; [apply led_os_remove | by apply ext_os_remove].
    + destruct v as [[|c v]|]; try discriminate.
      apply distribute_and_record_quiet in H as (rs & [= -> -> -> ->] & Hq). by apply Hq.
  - apply distribute_and_record_quiet in H as (rs & [= -> -> -> ->] & Hq). by apply Hq.
Qed.

Lemma process_item_quiet o fb_pages link st d vp is_reel results st' :
  process_item o fb_pages link st = (inr (ExitDistributed d vp is_reel results), st') ->
  success_count results = 0%nat ->
  same_ledger st st' /\ extends nowrite_kinds st st'.
Proof.
  unfold process_item, process_fetched. intros H Hz.
  apply bind_inv in H as (posted & s0 & H0 & H).
  destruct posted.
  { apply bind_inv in H as (? & ? & _ & H). discriminate. }
  apply bind_inv in H as (det & s1 & H1 & H).
  destruct det as [d0|].
  2:{ apply bind_inv in H as (? & ? & _ & H). discriminate. }
  apply bind_inv in H as (op & s2 & H2 & H).
  eapply quiet_trans; [|eapply quiet_trans; [|eapply quiet_trans]].
  - eapply quiet_of; [| |exact H0]; [apply led_is_video_posted | apply ext_is_video_posted].
  - eapply quiet_of; [| |exact H1];
      [apply led_get_video_details | by apply ext_get_video_details].
  - eapply quiet_of; [| |exact H2]; [apply led_download_video | by apply ext_download_video].
  - destruct op as [[|c op]|].
    + apply bind_inv in H as (? & ? & _ & H). discriminate.
    + by eapply process_downloaded_quiet.
    + apply bind_inv in H as (? & ? & _ & H). discriminate.
Qed.

(** C2.  When the body of the loop ends after an upload whose results hold
    no success (the empty list included), the in-memory ledger and the ledger
    file are what they were before the item, the ledger file was not written,
    and [new_videos] is not incremented. *)
Theorem zero_success_is_not_recorded (o : oracle) (fb_pages : list json) (link : string)
    (st st' : state) (d : details) (video_path : string) (is_reel : bool)
    (results : list upload_result) :
  process_item o fb_pages link st =
    (inr (ExitDistributed d video_path is_reel results), st') ->
  (forall r, r ∈ results -> res_status r <> StSuccess) ->
  posted_videos st' = posted_videos st /\
  data_file st' = data_file st /\
  has_kind KWrite (new_events st st') = false /\
  forall new_videos, process_link o fb_pages new_videos link st = (inr new_videos, st').
Proof.
  intros Hrun Hnone. apply no_success_count in Hnone.
  destruct (process_item_quiet _ _ _ _ _ _ _ _ _ Hrun Hnone) as [[Hp Hf] Hext].
  split; [exact Hp|]. split; [exact Hf|]. split.
  - apply extends_new_events in Hext as [_ Hall].
    by eapply allowed_excludes.
  - intros n. unfold process_link, try_except, bind. rewrite Hrun.
    unfold ret, new_videos_after. by rewrite Hnone.
Qed.

Lemma zero_success_is_not_recorded_witness :
  let st' := (process_item rejecting_oracle [page_one] video_one init_state).2 in
  posted_videos st' = [] /\ data_file st' = StoreMissing /\
  has_kind KWrite (new_events init_state st') = false /\
  process_link rejecting_oracle [page_one] 0 video_one init_state = (inr 0%nat, st').
Proof.
  intros st'.
  assert (Hrun : process_item rejecting_oracle [page_one] video_one init_state =
                 (inr (ExitDistributed details_one "downloaded_videos/v1.mp4" false
                         rejected_results), st')).
  { rewrite (surjective_pairing (process_item _ _ _ _)). f_equal; vm_compute; reflexivity. }
  assert (Hnone : forall r, r ∈ rejected_results -> res_status r <> StSuccess).
  { intros r Hr. apply list_elem_of_singleton in Hr. subst r. discriminate. }
  destruct (zero_success_is_not_recorded _ _ _ _ _ _ _ _ _ Hrun Hnone)
    as (Hp & Hf & Hw & Hl).
  split; [exact Hp|]. split; [exact Hf|]. split; [exact Hw|]. apply Hl.
Defined.

(** ** Short form or regular *)

Lemma allowed_all e : allowed all_kinds e = true.
Proof. by destruct e. Qed.

Lemma grows_of {A} (m : M A) st :
  steps (extends all_kinds) m -> exists l, trace (m st).2 = trace st ++ l.
Proof. intros H. destruct (H st) as [l [Hl _]]. by exists l. Qed.

Lemma process_item_fetched o fb_pages link st d st1 :
  contains (posted_videos st) link = false ->
  get_video_details o link st = (inr (Some d), st1) ->
  process_item o fb_pages link st = process_fetched o fb_pages d st1.
Proof.
  intros Hc Hd. unfold process_item, is_video_posted, bind, gets, ret.
  fold (contains (posted_videos st) link). by rewrite Hc, Hd.
Qed.

Lemma ext_process_fetched ks o fb_pages d :
  has ks KDownload = true -> has ks KPrint = true ->
  has ks KConfig = true -> has ks KValidate = true ->
  has ks KWrite = true -> has ks KRemove = true ->
  (if duration d <=? 60 then has ks KConvert = true /\ has ks KReel = true
   else has ks KRegular = true) ->
  steps (extends ks) (process_fetched o fb_pages d).
Proof.
  intros. unfold process_fetched, print.
  steps_go ltac:(first [ by apply ext_emit | by apply ext_download_video
                       | by apply ext_process_downloaded ]).
Qed.

Lemma process_item_kinds o fb_pages link st d st1 :
  contains (posted_videos st) link = false ->
  get_video_details o link st = (inr (Some d), st1) ->
  extends (if duration d <=? 60 then reel_kinds else regular_kinds)
          st (process_item o fb_pages link st).2.
Proof.
  intros Hc Hd. rewrite (process_item_fetched _ _ _ _ _ _ Hc Hd).
  transitivity st1.
  - assert (H : steps (extends (if duration d <=? 60 then reel_kinds else regular_kinds))
                      (get_video_details o link)).
    { apply ext_get_video_details; by destruct (duration d <=? 60). }
    specialize (H st). by rewrite Hd in H.
  - apply ext_process_fetched; by destruct (duration d <=? 60).
Qed.

Lemma first_event_bind {A B} (m : M A) (k : A -> M B) e :
  (forall st, exists l, trace (m st).2 = trace st ++ e :: l) ->
  (forall a, steps (extends all_kinds) (k a)) ->
  forall st, exists l, trace (bind m k st).2 = trace st ++ e :: l.
Proof.
  intros Hm Hk st. unfold bind. destruct (Hm st) as [l Hl].
  destruct (m st) as [[x|a] s1]; cbn [snd] in *; [by exists l|].
  destruct (Hk a s1) as [l2 [H2 _]]. exists (l ++ l2).
  by rewrite H2, Hl, <- app_assoc.
Qed.

Lemma convert_first_event o path st :
  exists l, trace (convert_to_reel_format o path st).2 = trace st ++ EvConvert path :: l.
Proof.
  unfold convert_to_reel_format. cbv zeta. apply first_event_bind.
  - intros s. exists []. reflexivity.
  - intros r. unfold print.
    steps_go ltac:(first [by apply ext_emit | apply ext_create_file]).
Qed.

Lemma process_downloaded_converts o fb_pages d path st :
  (duration d <=? 60) = true ->
  exists l, trace (process_downloaded o fb_pages d path st).2 =
            trace st ++ EvConvert path :: l.
Proof.
  intros Hd. unfold process_downloaded. cbv zeta. rewrite Hd.
  apply first_event_bind; [apply convert_first_event|].
  intros v.
  steps_go ltac:(first [ by apply ext_os_remove | by apply ext_distribute_and_record ]).
Qed.

Lemma process_item_converts o fb_pages link st d st1 c path st2 :
  contains (posted_videos st) link = false ->
  get_video_details o link st = (inr (Some d), st1) ->
  download_video o (source_url d) st1 = (inr (Some (String c path)), st2) ->
  duration d <= 60 ->
  EvConvert (String c path) ∈ new_events st (process_item o fb_pages link st).2.
Proof.
  intros Hc Hd Hdl Hle.
  rewrite (process_item_fetched _ _ _ _ _ _ Hc Hd).
  assert (Hrun : process_fetched o fb_pages d st1 =
                 process_downloaded o fb_pages d (String c path) st2).
  { unfold process_fetched, bind. by rewrite Hdl. }
  rewrite Hrun.
  destruct (grows_of _ st (ext_get_video_details all_kinds o link eq_refl eq_refl)) as [l1 H1].
  destruct (grows_of _ st1 (ext_download_video all_kinds o (source_url d) eq_refl eq_refl))
    as [l2 H2].
  rewrite Hd in H1. rewrite Hdl in H2. cbn [snd] in H1, H2.
  destruct (process_downloaded_converts o fb_pages d (String c path) st2) as [l3 H3].
  { by apply Z.leb_le. }
  unfold new_events. rewrite H3, H2, H1, <- !app_assoc, drop_app_length.
  set_solver.
Qed.

(** C7.  For a link that is not posted, whose details were fetched and whose
    media was downloaded: the video is converted to reel format exactly when
    its duration is at most 60 (60 itself included), a video of at most 60
    seconds causes no request of the regular protocol, and a longer one is
    not converted and causes no request of the reel protocol. *)
Theorem short_form_exactly_up_to_60 (o : oracle) (fb_pages : list json) (link : string)
    (st st1 st2 : state) (d : details) (c : ascii) (path : string) :
  contains (posted_videos st) link = false ->
  get_video_details o link st = (inr (Some d), st1) ->
  download_video o (source_url d) st1 = (inr (Some (String c path)), st2) ->
  let evs := new_events st (process_item o fb_pages link st).2 in
  (has_kind KConvert evs = true <-> duration d <= 60) /\
  (duration d <= 60 ->
   EvConvert (String c path) ∈ evs /\ has_kind KRegular evs = false) /\
  (60 < duration d ->
   has_kind KConvert evs = false /\ has_kind KReel evs = false).
Proof.
  intros Hc Hd Hdl evs.
  pose proof (process_item_kinds o fb_pages link st d st1 Hc Hd) as Hk.
  apply extends_new_events in Hk as [_ Hall]. fold evs in Hall.
  assert (Hshort : duration d <= 60 ->
            EvConvert (String c path) ∈ evs /\ has_kind KRegular evs = false).
  { intros Hle. split; [by eapply process_item_converts|].
    apply Z.leb_le in Hle. rewrite Hle in Hall. by eapply allowed_excludes. }
  assert (Hlong : 60 < duration d ->
            has_kind KConvert evs = false /\ has_kind KReel evs = false).
  { intros Hlt. apply Z.leb_gt in Hlt. rewrite Hlt in Hall.
    split; by eapply allowed_excludes. }
  split; [|by split].
  split.
  - intros Hconv. destruct (Z.le_gt_cases (duration d) 60) as [|Hgt]; [done|].
    destruct (Hlong Hgt) as [Hno _]. congruence.
  - intros Hle. destruct (Hshort Hle) as [Hin _].
    unfold has_kind. apply existsb_exists. exists (EvConvert (String c path)).
    split; [by apply list_elem_of_In | done].
Qed.

Lemma short_form_exactly_up_to_60_witness :
  60 < duration details_one /\
  has_kind KConvert
    (new_events init_state (process_item happy_oracle [page_one] video_one init_state).2)
    = false /\
  has_kind KReel
    (new_events init_state (process_item happy_oracle [page_one] video_one init_state).2)
    = false.
Proof.
  assert (Hc : contains (posted_videos init_state) video_one = false) by reflexivity.
  assert (Hd : get_video_details happy_oracle video_one init_state =
               (inr (Some details_one),
                (get_video_details happy_oracle video_one init_state).2)).
  { rewrite (surjective_pairing (get_video_details _ _ _)). f_equal; vm_compute; reflexivity. }
  assert (Hdl : download_video happy_oracle (source_url details_one)
                  (get_video_details happy_oracle video_one init_state).2 =
                (inr (Some "downloaded_videos/v1.mp4"),
                 (download_video happy_oracle (source_url details_one)
                    (get_video_details happy_oracle video_one init_state).2).2)).
  { rewrite (surjective_pairing (download_video _ _ _)). f_equal; vm_compute; reflexivity. }
  destruct (short_form_exactly_up_to_60 happy_oracle [page_one] video_one _ _ _ _ _ _
              Hc Hd Hdl) as (_ & _ & Hlong).
  assert (Hlt : 60 < duration details_one) by reflexivity.
  split; [exact Hlt|]. exact (Hlong Hlt).
Defined.

(** ** Duration markers that are not understood *)

Lemma parse_duration_default marker :
  match marker with
  | None => True
  | Some t => str_contains "detik" t = false /\ str_contains ":" t = false
  end ->
  parse_duration marker = ret 0.
Proof.
  destruct marker as [t|]; [|done]. intros [H1 H2]. unfold parse_duration.
  by rewrite H1, H2.
Qed.

Lemma parse_hashtags_pure meta st :
  parse_hashtags meta st = ((parse_hashtags meta st).1, st).
Proof. by destruct meta as [[c|]|]. Qed.

Lemma get_video_details_default o link st page :
  detail_page o (clock st) link = inr page ->
  parse_duration (duration_marker page) = ret 0 ->
  (forall d st1, get_video_details o link st = (inr (Some d), st1) -> duration d = 0) /\
  (forall c url, extracted_video_url page = Some (String c url) ->
     meta_keywords page <> Some None ->
     exists d st1, get_video_details o link st = (inr (Some d), st1) /\ duration d = 0).
Proof.
  intros Hpage Hdur.
  unfold get_video_details, try_except, bind, ask. cbn [fst snd clock].
  rewrite Hpage. cbn [ret]. rewrite Hdur. unfold ret at 1. cbv zeta.
  rewrite parse_hashtags_pure.
  destruct (meta_keywords page) as [[content|]|] eqn:Em; cbn [parse_hashtags ret raise fst].
  - destruct (extracted_video_url page) as [[|c url]|] eqn:Eu; unfold gets, ret, print, emit.
    + split; [by intros d st1 [=]|]. by intros ? ? [=].
    + split; [by intros d st1 [= <- <-]|]. intros ? ? _ _. by do 2 eexists.
    + split; [by intros d st1 [=]|]. by intros ? ? [=].
  - unfold print, emit, ret. split; [by intros d st1 [=]|]. by intros ? ? _ Hk.
  - destruct (extracted_video_url page) as [[|c url]|] eqn:Eu; unfold gets, ret, print, emit.
    + split; [by intros d st1 [=]|]. by intros ? ? [=].
    + split; [by intros d st1 [= <- <-]|]. intros ? ? _ _. by do 2 eexists.
    + split; [by intros d st1 [=]|]. by intros ? ? [=].
Qed.

Lemma is_video_posted_run link st :
  is_video_posted link st = (inr (contains (posted_videos st) link), st).
Proof. reflexivity. Qed.

Lemma process_item_skips o fb_pages link st :
  contains (posted_videos st) link = true ->
  process_item o fb_pages link st =
  (inr ExitSkipped, (print (LogSkipPosted link) st).2).
Proof.
  intros Hc. unfold process_item, bind. rewrite is_video_posted_run, Hc. reflexivity.
Qed.

Lemma process_item_exit_inv o fb_pages link st d vp is_reel rs st' :
  process_item o fb_pages link st = (inr (ExitDistributed d vp is_reel rs), st') ->
  contains (posted_videos st) link = false /\
  exists st1 c path st2,
    get_video_details o link st = (inr (Some d), st1) /\
    download_video o (source_url d) st1 = (inr (Some (String c path)), st2) /\
    is_reel = (duration d <=? 60) /\
    vp = (if is_reel then path_join DOWNLOAD_DIR ("reel_" +:+ basename (String c path))
          else String c path) /\
    process_downloaded o fb_pages d (String c path) st2 =
      (inr (ExitDistributed d vp is_reel rs), st').
Proof.
  unfold process_item, process_fetched. intros H.
  apply bind_inv in H as (posted & s0 & H0 & H).
  rewrite is_video_posted_run in H0. injection H0 as <- <-.
  destruct (contains (posted_videos st) link).
  { apply bind_inv in H as (? & ? & _ & H). discriminate. }
  split; [done|].
  apply bind_inv in H as (det & s1 & H1 & H).
  destruct det as [d0|].
  2:{ apply bind_inv in H as (? & ? & _ & H). discriminate. }
  apply bind_inv in H as (op & s2 & H2 & H).
  destruct op as [[|c op]|].
  1,3: apply bind_inv in H as (? & ? & _ & H); discriminate.
  assert (Hx : d0 = d /\ is_reel = (duration d0 <=? 60) /\
               vp = (if is_reel
                     then path_join DOWNLOAD_DIR ("reel_" +:+ basename (String c op))
                     else String c op)).
  { pose proof H as H'. unfold process_downloaded in H'. cbv zeta in H'.
    destruct (duration d0 <=? 60).
    - apply bind_inv in H' as (v & s3 & H3 & H').
      apply bind_inv in H' as (? & s4 & H4 & H').
      destruct v as [[|c' v]|]; try discriminate.
      apply distribute_and_record_quiet in H' as (rs' & [= -> -> -> ->] & _).
      split; [done|]. split; [done|].
      unfold convert_to_reel_format in H3. cbv zeta in H3.
      apply bind_inv in H3 as (r & s5 & _ & H3).
      destruct r.
      + apply bind_inv in H3 as (? & ? & _ & H3). discriminate.
      + apply bind_inv in H3 as (? & ? & _ & H3). unfold ret in H3. congruence.
    - by apply distribute_and_record_quiet in H' as (rs' & [= -> -> -> ->] & _). }
  destruct Hx as (-> & Hr & Hv).
  by exists s1, c, op, s2.
Qed.

Lemma process_item_reel_kinds o fb_pages link st :
  (forall d st1, get_video_details o link st = (inr (Some d), st1) -> duration d <= 60) ->
  extends reel_kinds st (process_item o fb_pages link st).2.
Proof.
  intros Hshort. destruct (contains (posted_videos st) link) eqn:Hc.
  { rewrite (process_item_skips _ _ _ _ Hc). cbn [snd]. by apply ext_emit. }
  pose proof (ext_get_video_details reel_kinds o link eq_refl eq_refl st) as Hd.
  destruct (get_video_details o link st) as [[e|[d|]] s1] eqn:E; cbn [snd] in Hd.
  - assert (Hrun : process_item o fb_pages link st = (inl e, s1)).
    { unfold process_item, bind. by rewrite is_video_posted_run, Hc, E. }
    by rewrite Hrun.
  - pose proof (process_item_kinds o fb_pages link st d s1 Hc E) as Hk.
    specialize (Hshort d s1 eq_refl). apply Z.leb_le in Hshort. by rewrite Hshort in Hk.
  - assert (Hrun : process_item o fb_pages link st =
                   (print LogDetailsFailed ;; ret ExitNoDetails) s1).
    { unfold process_item, bind at 1. rewrite is_video_posted_run, Hc.
      unfold bind at 1. by rewrite E. }
    rewrite Hrun. etransitivity; [exact Hd|]. by apply ext_emit.
Qed.

(** C10.  When the page was fetched and its duration marker is absent, or
    holds neither "detik" nor a colon: every details dict the scraper
    returns has duration 0, and it does return one whenever the media address
    is found and the keywords tag, if any, has a content; the item then
    causes no request of the regular protocol, and if its upload is reached
    it is uploaded as a reel after a conversion. *)
Theorem unparsed_duration_is_short_form (o : oracle) (fb_pages : list json)
    (link : string) (st : state) (page : page_html) :
  detail_page o (clock st) link = inr page ->
  match duration_marker page with
  | None => True
  | Some t => str_contains "detik" t = false /\ str_contains ":" t = false
  end ->
  let evs := new_events st (process_item o fb_pages link st).2 in
  (forall d st1, get_video_details o link st = (inr (Some d), st1) -> duration d = 0) /\
  (forall c url, extracted_video_url page = Some (String c url) ->
     meta_keywords page <> Some None ->
     exists d st1, get_video_details o link st = (inr (Some d), st1) /\ duration d = 0) /\
  has_kind KRegular evs = false /\
  (forall d vp is_reel rs st',
     process_item o fb_pages link st = (inr (ExitDistributed d vp is_reel rs), st') ->
     duration d = 0 /\ is_reel = true /\ has_kind KConvert evs = true).
Proof.
  intros Hpage Hmarker evs. apply parse_duration_default in Hmarker.
  destruct (get_video_details_default o link st page Hpage Hmarker) as [Hzero Hsome].
  split; [exact Hzero|]. split; [exact Hsome|]. split.
  - assert (Hext : extends reel_kinds st (process_item o fb_pages link st).2).
    { apply process_item_reel_kinds. intros d st1 Hd. rewrite (Hzero d st1 Hd). lia. }
    apply extends_new_events in Hext as [_ Hall]. by eapply allowed_excludes.
  - intros d vp is_reel rs st' Hrun.
    destruct (process_item_exit_inv _ _ _ _ _ _ _ _ _ Hrun)
      as (Hc & st1 & c & path & st2 & Hd & Hdl & Hr & _ & _).
    pose proof (Hzero d st1 Hd) as Hz.
    split; [exact Hz|]. split; [by rewrite Hr, Hz|].
    unfold has_kind. apply existsb_exists. exists (EvConvert (String c path)).
    split; [|done]. apply list_elem_of_In.
    eapply process_item_converts; eauto. lia.
Qed.

Lemma unparsed_duration_is_short_form_witness :
  has_kind KRegular
    (new_events init_state (process_item live_oracle [page_one] video_one init_state).2)
    = false /\
  exists d st1,
    get_video_details live_oracle video_one init_state = (inr (Some d), st1) /\
    duration d = 0.
Proof.
  assert (Hpage : detail_page live_oracle (clock init_state) video_one = inr live_video_page)
    by reflexivity.
  assert (Hmarker : match duration_marker live_video_page with
                    | None => True
                    | Some t => str_contains "detik" t = false /\ str_contains ":" t = false
                    end).
  { split; reflexivity. }
  destruct (unparsed_duration_is_short_form live_oracle [page_one] video_one init_state
              live_video_page Hpage Hmarker) as (_ & Hsome & Hreg & _).
  split; [exact Hreg|].
  apply (Hsome "h"%char "ttps://cdn.detik.com/live.m3u8"); [reflexivity | discriminate].
Defined.

(** ** The fan-out over the pages *)

Lemma try_except_returns {A} (m : M A) (h : exn -> M A) st :
  (forall e s, exists a s', h e s = (inr a, s')) ->
  exists a s', try_except m h st = (inr a, s').
Proof. intros Hh. unfold try_except. destruct (m st) as [[e|a] s]; eauto. Qed.

Lemma upload_reel_returns o u vp desc st :
  exists r s', _upload_reel o u vp desc st = (inr r, s').
Proof.
  apply try_except_returns. intros e s. destruct e; unfold print, emit, bind, ret; eauto.
Qed.

Lemma upload_regular_video_returns o u vp desc st :
  exists r s', _upload_regular_video o u vp desc st = (inr r, s').
Proof.
  apply try_except_returns. intros e s. destruct e; unfold print, emit, bind, ret; eauto.
Qed.

Lemma validations_app l1 l2 : validations (l1 ++ l2) = validations l1 ++ validations l2.
Proof. apply omap_app. Qed.

Lemma validations_excluded ks l :
  forallb (allowed ks) l = true -> has ks KValidate = false -> validations l = [].
Proof.
  intros Hall Hk. induction l as [|e l IH]; [done|].
  simpl in Hall. apply andb_true_iff in Hall as [He Hl].
  destruct e; simpl; try by apply IH.
  unfold allowed in He. simpl in He. congruence.
Qed.

(** Either protocol returns, and validates no token on the way. *)
Lemma upload_either o u vp desc (is_reel : bool) st :
  exists r s' l,
    (if is_reel then _upload_reel o u vp desc else _upload_regular_video o u vp desc) st
      = (inr r, s') /\
    trace s' = trace st ++ l /\ validations l = [].
Proof.
  destruct is_reel.
  - destruct (upload_reel_returns o u vp desc st) as (r & s' & E).
    destruct (ext_upload_reel [KReel; KPrint] o u vp desc eq_refl eq_refl st) as (l & Hl & Hall).
    rewrite E in Hl. exists r, s', l. split; [done|]. split; [done|].
    by eapply validations_excluded.
  - destruct (upload_regular_video_returns o u vp desc st) as (r & s' & E).
    destruct (ext_upload_regular_video [KRegular; KPrint] o u vp desc eq_refl eq_refl st)
      as (l & Hl & Hall).
    rewrite E in Hl. exists r, s', l. split; [done|]. split; [done|].
    by eapply validations_excluded.
Qed.

Lemma upload_to_page_obj o vp desc is_reel results kvs pid tok name st :
  dict_get kvs "page_id" = Some pid ->
  dict_get kvs "access_token" = Some tok ->
  dict_get kvs "page_name" = Some name ->
  exists r st' l,
    upload_to_page o vp desc is_reel results (JObj kvs) st = (inr (results ++ [r]), st') /\
    res_page_name r = name /\
    trace st' = trace st ++ l /\ validations l = [pid].
Proof.
  intros Hid Htok Hname.
  pose (u := {| page_id := pid; access_token := tok; page_name := name |}).
  pose (st1 := {| clock := S (clock st); storage := storage st;
                 posted_videos := posted_videos st; data_file := data_file st;
                 trace := trace st ++ [EvValidate pid] |}).
  destruct (upload_either o u vp desc is_reel st1) as (post & s2 & l & Eup & Hl & Hv).
  cbv beta iota delta [upload_to_page try_except bind FacebookUploader subscript
                       validate_token ask ret raise print emit].
  rewrite Hname, Hid, Htok. cbv beta iota. cbn [page_id].
  fold u. fold st1.
  destruct (http_validate o (clock st) u) as [msg|code text f] eqn:Ev.
  - cbn. eexists _, _, _. split; [reflexivity|]. split; [done|].
    rewrite <- !app_assoc. split; [reflexivity|]. done.
  - destruct (code =? 200); cbv beta iota; cbn [negb].
    + rewrite Eup. destruct post as [[|c post]|]; cbn [trace].
      * eexists _, _, (EvValidate pid :: l). split; [reflexivity|]. split; [done|].
        rewrite Hl. subst st1. cbn [trace]. rewrite <- app_assoc. split; [done|].
        simpl. by rewrite Hv.
      * eexists _, _, (EvValidate pid :: l ++ [EvPrint (LogUploaded name)]).
        split; [reflexivity|]. split; [done|].
        rewrite Hl. subst st1. cbn [trace]. rewrite <- !app_assoc. split; [done|].
        simpl. by rewrite validations_app, Hv.
      * eexists _, _, (EvValidate pid :: l). split; [reflexivity|]. split; [done|].
        rewrite Hl. subst st1. cbn [trace]. rewrite <- app_assoc. split; [done|].
        simpl. by rewrite Hv.
    + cbn. eexists _, _, _. split; [reflexivity|]. split; [done|].
      rewrite <- !app_assoc. split; [reflexivity|]. done.
Qed.

Lemma destination_fields kvs :
  is_destination (JObj kvs) = true ->
  exists pid tok name,
    dict_get kvs "page_id" = Some pid /\ dict_get kvs "access_token" = Some tok /\
    dict_get kvs "page_name" = Some name.
Proof.
  unfold is_destination, required_fields, has_field, field_of. cbn [forallb].
  destruct (dict_get kvs "page_id") as [pid|]; [|done].
  destruct (dict_get kvs "access_token") as [tok|]; [|done].
  destruct (dict_get kvs "page_name") as [name|]; [|done].
  intros _. by exists pid, tok, name.
Qed.

Lemma fold_upload_to_page o vp desc is_reel pages :
  forallb is_obj pages = true -> forallb is_destination pages = true ->
  forall results st,
  exists rs st' l,
    fold_m (upload_to_page o vp desc is_reel) pages results st = (inr (results ++ rs), st') /\
    Forall2 (fun page r => field_of page "page_name" = Some (res_page_name r)) pages rs /\
    trace st' = trace st ++ l /\
    Forall2 (fun page pid => field_of page "page_id" = Some pid) pages (validations l).
Proof.
  induction pages as [|page pages IH]; intros Hobj Hdest results st.
  - exists [], st, []. cbn. rewrite !app_nil_r. repeat split; constructor.
  - cbn [forallb] in Hobj, Hdest.
    apply andb_true_iff in Hobj as [Hp Hobj]. apply andb_true_iff in Hdest as [Hd Hdest].
    destruct page as [| | | | |kvs]; try discriminate.
    destruct (destination_fields kvs Hd) as (pid & tok & name & Hid & Htok & Hname).
    destruct (upload_to_page_obj o vp desc is_reel results kvs pid tok name st Hid Htok Hname)
      as (r & s1 & l1 & Hrun & Hr & Hl1 & Hv1).
    destruct (IH Hobj Hdest (results ++ [r]) s1) as (rs & s2 & l2 & Hrest & Hnames & Hl2 & Hv2).
    exists (r :: rs), s2, (l1 ++ l2). cbn [fold_m]. unfold bind. rewrite Hrun, Hrest.
    split; [by rewrite <- app_assoc|]. split.
    { constructor; [|done]. cbn. by rewrite Hname, Hr. }
    split; [by rewrite Hl2, Hl1, app_assoc|].
    rewrite validations_app, Hv1. cbn. by constructor.
Qed.

Lemma check_pages_pure pages st : (check_pages pages st).2 = st.
Proof.
  pose proof (steps_check_pages eq pages st) as H. by symmetry.
Qed.

Lemma load_pages_inv o st pages st1 :
  load_pages o st = (inr pages, st1) ->
  fb_pages_file o (clock st) = CfgJson (JList pages) /\
  st1 = (ask (fb_pages_file o) EvReadConfig st).2 /\
  (check_pages pages st1).1 = inr tt.
Proof.
  unfold load_pages, bind at 1, ask. cbn [fst snd].
  destruct (fb_pages_file o (clock st)) as [|msg|j]; try discriminate.
  unfold try_except.
  destruct j as [| | | |l|]; try discriminate.
  unfold bind.
  match goal with |- context [check_pages l ?s] =>
    pose proof (check_pages_pure l s) as Hpure;
    destruct (check_pages l s) as [[e|[]] s'] eqn:E end; [discriminate|].
  cbn [snd] in Hpure. subst s'. intros [= <- <-]. by rewrite E.
Qed.

(** C4.  Once the configuration loads as a list of objects,
    [upload_to_all_pages] returns, with one result per page in the order of
    the list, each under the name of its page; and the token of every page
    was put to the test, in the order of the list, whatever the outcome at
    the pages before it. *)
Theorem upload_to_all_pages_reaches_every_page (o : oracle) (self : uploader)
    (video_path description : string) (is_reel : bool) (st st1 : state)
    (pages : list json) :
  load_pages o st = (inr pages, st1) ->
  forallb is_obj pages = true ->
  exists results st',
    upload_to_all_pages o self video_path description is_reel st = (inr results, st') /\
    length results = length pages /\
    Forall2 (fun page r => field_of page "page_name" = Some (res_page_name r))
            pages results /\
    Forall2 (fun page pid => field_of page "page_id" = Some pid)
            pages (validations (new_events st st')).
Proof.
  intros Hload Hobj.
  destruct (load_pages_inv _ _ _ _ Hload) as (Hsrc & Hst1 & Hcheck).
  assert (Hdest : forallb is_destination pages = true).
  { destruct (check_pages_obj pages st1 Hobj) as [[H _]|[_ [msg H]]]; [done|].
    rewrite H in Hcheck. discriminate. }
  destruct (fold_upload_to_page o video_path description is_reel pages Hobj Hdest [] st1)
    as (rs & st' & l & Hrun & Hnames & Hl & Hv).
  exists rs, st'. unfold upload_to_all_pages, bind. rewrite Hload, Hrun.
  split; [done|]. split; [symmetry; by eapply Forall2_length|]. split; [done|].
  unfold new_events. rewrite Hl, Hst1. cbn [snd ask trace].
  by rewrite <- app_assoc, drop_app_length.
Qed.

Lemma upload_to_all_pages_reaches_every_page_witness :
  exists results st',
    upload_to_all_pages three_pages_oracle uploader_one
      "downloaded_videos/v1.mp4" "caption" false state_with_video = (inr results, st') /\
    map res_status results = [StSuccess; StFailed; StSuccess] /\
    validations (new_events state_with_video st') = [JStr "111"; JStr "222"; JStr "333"].
Proof.
  assert (Hload : load_pages three_pages_oracle state_with_video =
                  (inr [page_one; page_two; page_three],
                   (load_pages three_pages_oracle state_with_video).2)).
  { rewrite (surjective_pairing (load_pages _ _)). f_equal; vm_compute; reflexivity. }
  destruct (upload_to_all_pages_reaches_every_page three_pages_oracle uploader_one
              "downloaded_videos/v1.mp4" "caption" false _ _ _ Hload eq_refl)
    as (results & st' & Hrun & _ & _ & _).
  exists results, st'. split; [exact Hrun|].
  rewrite (surjective_pairing (upload_to_all_pages _ _ _ _ _ _)) in Hrun.
  injection Hrun as Hres Hst. apply (f_equal (@inr exn _)) in Hres.
  assert (Hc : (upload_to_all_pages three_pages_oracle uploader_one
                  "downloaded_videos/v1.mp4" "caption" false state_with_video).1 =
               inr [{| res_page_name := JStr "Page One"; res_status := StSuccess;
                       res_post_id := Some "901"; res_error := None |};
                    no_post_id_result (JStr "Page Two");
                    {| res_page_name := JStr "Page Three"; res_status := StSuccess;
                       res_post_id := Some "901"; res_error := None |}])
    by (vm_compute; reflexivity).
  rewrite Hc in Hres. injection Hres as <-. split; [reflexivity|].
  subst st'. vm_compute. reflexivity.
Defined.
